(** * gotty: the [app] package (app/app.go)

    A shallow embedding of the start-up half of the web-terminal server:
    the options record and its defaults, configuration and profile
    loading, [~/] expansion, the random URL segment, the Basic-auth
    wrapper and the wiring done by [Run].

    Go strings are byte sequences, so they are Rocq [string]s (lists of
    8-bit [ascii]); Go [int] is [Z]; a Go map is a [gmap]; a run-time
    panic is the [Panic] outcome of the [Go] monad below.  What the
    package gets from its environment (the file system, the process
    environment, the entropy source, the HCL parser, the HTTP stack) is
    passed in explicitly. *)

From Stdlib Require Import ZArith String Ascii List Bool Lia.
From stdpp Require Import base option list strings gmap.

Local Open Scope Z_scope.

(** ** Outcomes of Go code: a value, or a run-time panic *)

Inductive Go (A : Type) : Type :=
| Ret (a : A)
| Panic (msg : string).
Arguments Ret {A} a.
Arguments Panic {A} msg.

#[global] Instance Go_ret : MRet Go := @Ret.
#[global] Instance Go_bind : MBind Go := fun A B f m =>
  match m with
  | Ret a => f a
  | Panic msg => Panic msg
  end.

#[global] Instance Go_fmap : FMap Go := fun A B f m =>
  match m with
  | Ret a => Ret (f a)
  | Panic msg => Panic msg
  end.

Definition panics {A} (m : Go A) : Prop := exists msg, m = Panic msg.

(** ** Byte strings *)

Definition len (s : string) : Z := Z.of_nat (String.length s).

Fixpoint string_drop (n : nat) (s : string) : string :=
  match n, s with
  | O, _ => s
  | S n', String _ s' => string_drop n' s'
  | S _, EmptyString => EmptyString
  end.

Fixpoint string_take (n : nat) (s : string) : string :=
  match n, s with
  | S n', String c s' => String c (string_take n' s')
  | _, _ => EmptyString
  end.

(** [s[lo:hi]]: Go checks [0 <= lo <= hi <= len(s)] and panics otherwise. *)
Definition slice (s : string) (lo hi : Z) : Go string :=
  if decide (0 <= lo /\ lo <= hi /\ hi <= len s)
  then Ret (string_take (Z.to_nat (hi - lo)) (string_drop (Z.to_nat lo) s))
  else Panic "runtime error: slice bounds out of range".

(** [s[lo:]] is [s[lo:len(s)]]. *)
Definition slice_from (s : string) (lo : Z) : Go string := slice s lo (len s).

(** [s[i]] *)
Definition index (s : string) (i : Z) : Go ascii :=
  if decide (0 <= i)
  then match String.get (Z.to_nat i) s with
       | Some c => Ret c
       | None => Panic "runtime error: index out of range"
       end
  else Panic "runtime error: index out of range".

(** The double-quote byte, for the literals of the source that contain one. *)
Definition dq : string := String "034" EmptyString.

Definition is_lower (c : ascii) : bool :=
  let n := N_of_ascii c in ((97 <=? n) && (n <=? 122))%N.
Definition is_upper (c : ascii) : bool :=
  let n := N_of_ascii c in ((65 <=? n) && (n <=? 90))%N.
Definition is_digit (c : ascii) : bool :=
  let n := N_of_ascii c in ((48 <=? n) && (n <=? 57))%N.
Definition to_lower (c : ascii) : ascii :=
  if is_upper c then ascii_of_N (N_of_ascii c + 32) else c.
Definition to_upper (c : ascii) : ascii :=
  if is_lower c then ascii_of_N (N_of_ascii c - 32) else c.

Fixpoint string_map (f : ascii -> ascii) (s : string) : string :=
  match s with
  | EmptyString => EmptyString
  | String c s' => String (f c) (string_map f s')
  end.

Fixpoint string_forallb (p : ascii -> bool) (s : string) : bool :=
  match s with
  | EmptyString => true
  | String c s' => p c && string_forallb p s'
  end.

Fixpoint string_filter (p : ascii -> bool) (s : string) : string :=
  match s with
  | EmptyString => EmptyString
  | String c s' => if p c then String c (string_filter p s') else string_filter p s'
  end.

(** A string all of whose bytes are below [0x80]. *)
Definition isASCII (s : string) : bool :=
  string_forallb (fun c => (N_of_ascii c <? 128)%N) s.

(** *** Package [strings] *)

Fixpoint strings_HasPrefix (s prefix : string) : bool :=
  match prefix, s with
  | EmptyString, _ => true
  | String a prefix', String b s' => Ascii.eqb a b && strings_HasPrefix s' prefix'
  | String _ _, EmptyString => false
  end.

(** [strings.Index]: the offset of the first occurrence of [sep], if any. *)
Fixpoint strings_Index (s sep : string) : option nat :=
  if strings_HasPrefix s sep then Some O
  else match s with
       | EmptyString => None
       | String _ s' => S <$> strings_Index s' sep
       end.

(** The loop of [strings.genSplit] for a non-empty separator: at most
    [n] cuts, then the rest of the string as the last piece. *)
Fixpoint genSplit (n : nat) (s sep : string) : list string :=
  match n with
  | O => [s]
  | S n' =>
      match strings_Index s sep with
      | None => [s]
      | Some m =>
          string_take m s :: genSplit n' (string_drop (m + String.length sep) s) sep
      end
  end.

(** [strings.SplitN(s, sep, n)] for a non-empty [sep] (the package only
    calls it with a single space): [n = 0] gives no piece, [n < 0] every
    piece, [n > 0] at most [n] pieces, the last one unsplit. *)
Definition strings_SplitN (s sep : string) (n : Z) : list string :=
  if n =? 0 then []
  else if n <? 0 then genSplit (String.length s) s sep
  else genSplit (Z.to_nat (n - 1)) s sep.

Fixpoint strings_Join (a : list string) (sep : string) : string :=
  match a with
  | [] => ""
  | [x] => x
  | x :: rest => x +:+ sep +:+ strings_Join rest sep
  end.

(** *** Package [encoding/base64]: [StdEncoding.DecodeString] *)

(** The decode map of the standard alphabet. *)
Definition base64_value (c : ascii) : option N :=
  let n := N_of_ascii c in
  (if is_upper c then Some (n - 65)
   else if is_lower c then Some (n - 71)
   else if is_digit c then Some (n + 4)
   else if n =? 43 then Some 62
   else if n =? 47 then Some 63
   else None)%N.

Definition base64_is_pad (c : ascii) : bool := Ascii.eqb c "=".

Definition is_empty (s : string) : bool :=
  match s with EmptyString => true | _ => false end.

(** The quantum loop of [Encoding.decode] with padding and without
    strict mode: four symbols give three bytes; the last quantum may
    end in [=] (two bytes) or [==] (one byte); input that stops inside a
    quantum, a pad elsewhere, a byte outside the alphabet or anything
    after the padding is a [CorruptInputError] ([None]). *)
Fixpoint base64_decode (src : string) : option string :=
  match src with
  | EmptyString => Some EmptyString
  | String a (String b (String c (String d rest))) =>
      match base64_value a, base64_value b with
      | Some va, Some vb =>
          let b0 := ascii_of_N ((va * 4 + vb / 16) mod 256) in
          if base64_is_pad c then
            if base64_is_pad d && is_empty rest
            then Some (String b0 EmptyString)
            else None
          else
            match base64_value c with
            | None => None
            | Some vc =>
                let b1 := ascii_of_N (((vb mod 16) * 16 + vc / 4) mod 256) in
                if base64_is_pad d then
                  if is_empty rest
                  then Some (String b0 (String b1 EmptyString))
                  else None
                else
                  match base64_value d with
                  | None => None
                  | Some vd =>
                      let b2 := ascii_of_N (((vc mod 4) * 64 + vd) mod 256) in
                      match base64_decode rest with
                      | None => None
                      | Some tail => Some (String b0 (String b1 (String b2 tail)))
                      end
                  end
            end
      | _, _ => None
      end
  | _ => None
  end.

(** Carriage returns and line feeds are skipped wherever they stand. *)
Definition base64_newline (c : ascii) : bool :=
  Ascii.eqb c "010" || Ascii.eqb c "013".

(** The decoded bytes, or [None] when the library returns an error. *)
Definition base64_StdEncoding_DecodeString (s : string) : option string :=
  base64_decode (string_filter (fun c => negb (base64_newline c)) s).

(** *** Package [strconv]: [FormatInt] *)

Definition strconv_digits : string := "0123456789abcdefghijklmnopqrstuvwxyz".

Definition strconv_digit (d : Z) : ascii :=
  default "0"%char (String.get (Z.to_nat d) strconv_digits).

(** The digits of [u >= 0], most significant first, put before [acc]. *)
Fixpoint formatBits (fuel : nat) (u base : Z) (acc : string) : string :=
  match fuel with
  | O => acc
  | S fuel' =>
      if u <? base then String (strconv_digit u) acc
      else formatBits fuel' (u / base) base (String (strconv_digit (u mod base)) acc)
  end.

Definition strconv_FormatInt (i base : Z) : Go string :=
  if (base <? 2) || (36 <? base)
  then Panic "strconv: illegal AppendInt/FormatInt base"
  else if i <? 0 then Ret ("-" +:+ formatBits 64 (- i) base "")
  else Ret (formatBits 64 i base "").

(** [big.Int.Int64]: the low 64 bits, read as a signed integer. *)
Definition big_Int64 (c : Z) : Z := (c + 2 ^ 63) mod 2 ^ 64 - 2 ^ 63.

(** *** Package [camelcase] (github.com/fatih/camelcase) on ASCII input *)

(** The four classes of [Split]: lower, upper, digit, anything else. *)
Definition camelcase_class (c : ascii) : nat :=
  if is_lower c then 1%nat else if is_upper c then 2%nat
  else if is_digit c then 3%nat else 4%nat.

Definition string_head (s : string) : ascii :=
  match s with String c _ => c | EmptyString => "000"%char end.

Fixpoint string_last (s : string) : ascii :=
  match s with
  | EmptyString => "000"%char
  | String c EmptyString => c
  | String _ s' => string_last s'
  end.

Fixpoint string_init (s : string) : string :=
  match s with
  | EmptyString | String _ EmptyString => EmptyString
  | String c s' => String c (string_init s')
  end.

(** First loop of [Split]: cut wherever the class changes. *)
Fixpoint camelcase_runs (lastClass : nat) (src : string) (runes : list string)
  : list string :=
  match src with
  | EmptyString => runes
  | String r src' =>
      let class := camelcase_class r in
      camelcase_runs class src'
        (if (class =? lastClass)%nat
         then match reverse runes with
              | lastRun :: before => reverse before ++ [lastRun +:+ String r EmptyString]
              | [] => [String r EmptyString]
              end
         else runes ++ [String r EmptyString])
  end.

(** Second loop of [Split], from index [i], for [n] iterations: an upper
    run followed by a lower run hands its last letter over
    ([PDFL], [oader] becomes [PDF], [Loader]). *)
Fixpoint camelcase_fix (n i : nat) (runes : list string) : list string :=
  match n with
  | O => runes
  | S n' =>
      match runes !! i, runes !! S i with
      | Some ri, Some ri1 =>
          if is_upper (string_head ri) && is_lower (string_head ri1)
          then camelcase_fix n' (S i)
                 (<[i := string_init ri]> (<[S i := String (string_last ri) ri1]> runes))
          else camelcase_fix n' (S i) runes
      | _, _ => runes
      end
  end.

Definition camelcase_Split (src : string) : list string :=
  let runes := camelcase_runs 0 src [] in
  let runes := camelcase_fix (length runes - 1) 0 runes in
  filter (fun s => s <> EmptyString) runes.

(** *** Package [net/textproto]: canonical header keys *)

Definition validHeaderFieldByte (c : ascii) : bool :=
  is_lower c || is_upper c || is_digit c
  || existsb (Ascii.eqb c) (list_ascii_of_string "!#$%&'*+-.^_`|~").

Fixpoint canonicalize (upper : bool) (a : string) : string :=
  match a with
  | EmptyString => EmptyString
  | String c rest =>
      let c' := if upper && is_lower c then to_upper c
                else if negb upper && is_upper c then to_lower c
                else c in
      String c' (canonicalize (Ascii.eqb c' "-") rest)
  end.

(** First letter and every letter after a dash in upper case, the others
    in lower case; a key with a byte that no header name may hold is
    left as it is. *)
Definition textproto_CanonicalMIMEHeaderKey (s : string) : string :=
  if string_forallb validHeaderFieldByte s then canonicalize true s else s.

(** *** Package [net]: [JoinHostPort] *)

Definition net_JoinHostPort (host port : string) : string :=
  if existsb (fun c => Ascii.eqb c ":" || Ascii.eqb c "%") (list_ascii_of_string host)
  then "[" +:+ host +:+ "]:" +:+ port
  else host +:+ ":" +:+ port.

(** ** Errors and the file system *)

Inductive Errno := ENOENT | EACCES | EISDIR | EIO.

(** Go [error] values: an [os.PathError] or a plain message
    ([errors.New], [fmt.Errorf], the HCL library's errors). *)
Inductive error :=
| PathError (op path : string) (errno : Errno)
| errorString (msg : string).

Definition errors_New (msg : string) : error := errorString msg.

#[global] Instance Errno_eq_dec : EqDecision Errno.
Proof. solve_decision. Defined.
#[global] Instance error_eq_dec : EqDecision error.
Proof. solve_decision. Defined.

(** [os.IsNotExist]; a nil error does not say so. *)
Definition os_IsNotExist (err : option error) : bool :=
  match err with
  | Some (PathError _ _ ENOENT) => true
  | _ => false
  end.

(** What a path names: a readable file; something [stat] succeeds on
    but whose reading fails after [partial] bytes (a directory, an I/O
    error); or something [stat] itself fails on.  A path outside the
    map names nothing. *)
Inductive Node :=
| Regular (content : string)
| Unreadable (errno : Errno) (partial : string)
| NoAccess (errno : Errno).

Definition os_Stat (fs : gmap string Node) (path : string) : option error :=
  match fs !! path with
  | None => Some (PathError "stat" path ENOENT)
  | Some (NoAccess errno) => Some (PathError "stat" path errno)
  | Some _ => None
  end.

Definition ioutil_ReadFile (fs : gmap string Node) (path : string)
  : string * option error :=
  match fs !! path with
  | None => ("", Some (PathError "open" path ENOENT))
  | Some (NoAccess errno) => ("", Some (PathError "open" path errno))
  | Some (Unreadable errno partial) => (partial, Some (PathError "read" path errno))
  | Some (Regular content) => (content, None)
  end.

Definition os_Getenv (env : gmap string string) (key : string) : string :=
  default "" (env !! key).

(** ** Decoded documents: the values behind [interface{}] *)

(** What the HCL decoder stores in a [map[string]interface{}]: strings,
    ints, bools, floats (kept as their literal), and slices (lists, and
    the one-per-block slices of nested objects). *)
#[warning="-register-all"]
Inductive Value :=
| VString (s : string)
| VInt (n : Z)
| VBool (b : bool)
| VFloat (literal : string)
| VSlice (elems : list Value)
| VMap (entries : list (string * Value)).

Inductive Kind := String_ | Int | Bool | Float64 | Slice | Map.

#[global] Instance Kind_eq_dec : EqDecision Kind.
Proof. solve_decision. Defined.

Definition Value_Kind (v : Value) : Kind :=
  match v with
  | VString _ => String_
  | VInt _ => Int
  | VBool _ => Bool
  | VFloat _ => Float64
  | VSlice _ => Slice
  | VMap _ => Map
  end.

Definition Kind_String (k : Kind) : string :=
  match k with
  | String_ => "string"
  | Int => "int"
  | Bool => "bool"
  | Float64 => "float64"
  | Slice => "slice"
  | Map => "map"
  end.

(** ** [Options] (app.go, lines 39-55) and [DefaultOptions] (lines 57-73) *)

Record Options := {
  Address : string;
  Port : string;
  PermitWrite : bool;
  EnableBasicAuth : bool;
  Credential : string;
  EnableRandomUrl : bool;
  RandomUrlLength : Z;
  ProfileFile : string;
  EnableTLS : bool;
  TLSCrtFile : string;
  TLSKeyFile : string;
  TitleFormat : string;
  EnableReconnect : bool;
  ReconnectTime : Z;
  Once : bool
}.

Definition DefaultOptions : Options := {|
  Address := "";
  Port := "8080";
  PermitWrite := false;
  EnableBasicAuth := false;
  Credential := "";
  EnableRandomUrl := false;
  RandomUrlLength := 8;
  ProfileFile := "~/.gotty.prf";
  EnableTLS := false;
  TLSCrtFile := "~/.gotty.key";
  TLSKeyFile := "~/.gotty.crt";
  TitleFormat := "GoTTY - {{ .Command }} ({{ .Hostname }})";
  EnableReconnect := false;
  ReconnectTime := 10;
  Once := false
|}.

(** *** Reflection over the record (github.com/fatih/structs) *)

(** A handle on one exported field of the record behind [structs.New]. *)
Inductive Field :=
| FAddress
| FPort
| FPermitWrite
| FEnableBasicAuth
| FCredential
| FEnableRandomUrl
| FRandomUrlLength
| FProfileFile
| FEnableTLS
| FTLSCrtFile
| FTLSKeyFile
| FTitleFormat
| FEnableReconnect
| FReconnectTime
| FOnce.

#[global] Instance Field_eq_dec : EqDecision Field.
Proof. solve_decision. Defined.

(** [Names]: the exported field names, in declaration order. *)
Definition Names : list string :=
  ["Address"; "Port"; "PermitWrite"; "EnableBasicAuth"; "Credential"; "EnableRandomUrl"; "RandomUrlLength"; "ProfileFile"; "EnableTLS"; "TLSCrtFile"; "TLSKeyFile"; "TitleFormat"; "EnableReconnect"; "ReconnectTime"; "Once"].

Definition Field_Name (f : Field) : string :=
  match f with
  | FAddress => "Address"
  | FPort => "Port"
  | FPermitWrite => "PermitWrite"
  | FEnableBasicAuth => "EnableBasicAuth"
  | FCredential => "Credential"
  | FEnableRandomUrl => "EnableRandomUrl"
  | FRandomUrlLength => "RandomUrlLength"
  | FProfileFile => "ProfileFile"
  | FEnableTLS => "EnableTLS"
  | FTLSCrtFile => "TLSCrtFile"
  | FTLSKeyFile => "TLSKeyFile"
  | FTitleFormat => "TitleFormat"
  | FEnableReconnect => "EnableReconnect"
  | FReconnectTime => "ReconnectTime"
  | FOnce => "Once"
  end.

Definition all_fields : list Field :=
  [FAddress; FPort; FPermitWrite; FEnableBasicAuth; FCredential; FEnableRandomUrl; FRandomUrlLength; FProfileFile; FEnableTLS; FTLSCrtFile; FTLSKeyFile; FTitleFormat; FEnableReconnect; FReconnectTime; FOnce].

(** [FieldOk]: the field of that name, if the record has one. *)
Definition FieldOk (name : string) : option Field :=
  find (fun f => String.eqb (Field_Name f) name) all_fields.

(** [Field.Value]: the field's current value as an [interface{}]. *)
Definition Field_Value (f : Field) (o : Options) : Value :=
  match f with
  | FAddress => VString (Address o)
  | FPort => VString (Port o)
  | FPermitWrite => VBool (PermitWrite o)
  | FEnableBasicAuth => VBool (EnableBasicAuth o)
  | FCredential => VString (Credential o)
  | FEnableRandomUrl => VBool (EnableRandomUrl o)
  | FRandomUrlLength => VInt (RandomUrlLength o)
  | FProfileFile => VString (ProfileFile o)
  | FEnableTLS => VBool (EnableTLS o)
  | FTLSCrtFile => VString (TLSCrtFile o)
  | FTLSKeyFile => VString (TLSKeyFile o)
  | FTitleFormat => VString (TitleFormat o)
  | FEnableReconnect => VBool (EnableReconnect o)
  | FReconnectTime => VInt (ReconnectTime o)
  | FOnce => VBool (Once o)
  end.

Definition Field_Kind (f : Field) : Kind :=
  match f with
  | FAddress => String_
  | FPort => String_
  | FPermitWrite => Bool
  | FEnableBasicAuth => Bool
  | FCredential => String_
  | FEnableRandomUrl => Bool
  | FRandomUrlLength => Int
  | FProfileFile => String_
  | FEnableTLS => Bool
  | FTLSCrtFile => String_
  | FTLSKeyFile => String_
  | FTitleFormat => String_
  | FEnableReconnect => Bool
  | FReconnectTime => Int
  | FOnce => Bool
  end.

(** Assignment to one field of the record. *)
Definition set_Address (v : string) (o : Options) : Options :=
  {| Address := v; Port := Port o; PermitWrite := PermitWrite o;
     EnableBasicAuth := EnableBasicAuth o; Credential := Credential o;
     EnableRandomUrl := EnableRandomUrl o; RandomUrlLength := RandomUrlLength o;
     ProfileFile := ProfileFile o; EnableTLS := EnableTLS o;
     TLSCrtFile := TLSCrtFile o; TLSKeyFile := TLSKeyFile o;
     TitleFormat := TitleFormat o; EnableReconnect := EnableReconnect o;
     ReconnectTime := ReconnectTime o; Once := Once o |}.
Definition set_Port (v : string) (o : Options) : Options :=
  {| Address := Address o; Port := v; PermitWrite := PermitWrite o;
     EnableBasicAuth := EnableBasicAuth o; Credential := Credential o;
     EnableRandomUrl := EnableRandomUrl o; RandomUrlLength := RandomUrlLength o;
     ProfileFile := ProfileFile o; EnableTLS := EnableTLS o;
     TLSCrtFile := TLSCrtFile o; TLSKeyFile := TLSKeyFile o;
     TitleFormat := TitleFormat o; EnableReconnect := EnableReconnect o;
     ReconnectTime := ReconnectTime o; Once := Once o |}.
Definition set_PermitWrite (v : bool) (o : Options) : Options :=
  {| Address := Address o; Port := Port o; PermitWrite := v;
     EnableBasicAuth := EnableBasicAuth o; Credential := Credential o;
     EnableRandomUrl := EnableRandomUrl o; RandomUrlLength := RandomUrlLength o;
     ProfileFile := ProfileFile o; EnableTLS := EnableTLS o;
     TLSCrtFile := TLSCrtFile o; TLSKeyFile := TLSKeyFile o;
     TitleFormat := TitleFormat o; EnableReconnect := EnableReconnect o;
     ReconnectTime := ReconnectTime o; Once := Once o |}.
Definition set_EnableBasicAuth (v : bool) (o : Options) : Options :=
  {| Address := Address o; Port := Port o; PermitWrite := PermitWrite o;
     EnableBasicAuth := v; Credential := Credential o;
     EnableRandomUrl := EnableRandomUrl o; RandomUrlLength := RandomUrlLength o;
     ProfileFile := ProfileFile o; EnableTLS := EnableTLS o;
     TLSCrtFile := TLSCrtFile o; TLSKeyFile := TLSKeyFile o;
     TitleFormat := TitleFormat o; EnableReconnect := EnableReconnect o;
     ReconnectTime := ReconnectTime o; Once := Once o |}.
Definition set_Credential (v : string) (o : Options) : Options :=
  {| Address := Address o; Port := Port o; PermitWrite := PermitWrite o;
     EnableBasicAuth := EnableBasicAuth o; Credential := v;
     EnableRandomUrl := EnableRandomUrl o; RandomUrlLength := RandomUrlLength o;
     ProfileFile := ProfileFile o; EnableTLS := EnableTLS o;
     TLSCrtFile := TLSCrtFile o; TLSKeyFile := TLSKeyFile o;
     TitleFormat := TitleFormat o; EnableReconnect := EnableReconnect o;
     ReconnectTime := ReconnectTime o; Once := Once o |}.
Definition set_EnableRandomUrl (v : bool) (o : Options) : Options :=
  {| Address := Address o; Port := Port o; PermitWrite := PermitWrite o;
     EnableBasicAuth := EnableBasicAuth o; Credential := Credential o;
     EnableRandomUrl := v; RandomUrlLength := RandomUrlLength o;
     ProfileFile := ProfileFile o; EnableTLS := EnableTLS o;
     TLSCrtFile := TLSCrtFile o; TLSKeyFile := TLSKeyFile o;
     TitleFormat := TitleFormat o; EnableReconnect := EnableReconnect o;
     ReconnectTime := ReconnectTime o; Once := Once o |}.
Definition set_RandomUrlLength (v : Z) (o : Options) : Options :=
  {| Address := Address o; Port := Port o; PermitWrite := PermitWrite o;
     EnableBasicAuth := EnableBasicAuth o; Credential := Credential o;
     EnableRandomUrl := EnableRandomUrl o; RandomUrlLength := v;
     ProfileFile := ProfileFile o; EnableTLS := EnableTLS o;
     TLSCrtFile := TLSCrtFile o; TLSKeyFile := TLSKeyFile o;
     TitleFormat := TitleFormat o; EnableReconnect := EnableReconnect o;
     ReconnectTime := ReconnectTime o; Once := Once o |}.
Definition set_ProfileFile (v : string) (o : Options) : Options :=
  {| Address := Address o; Port := Port o; PermitWrite := PermitWrite o;
     EnableBasicAuth := EnableBasicAuth o; Credential := Credential o;
     EnableRandomUrl := EnableRandomUrl o; RandomUrlLength := RandomUrlLength o;
     ProfileFile := v; EnableTLS := EnableTLS o; TLSCrtFile := TLSCrtFile o;
     TLSKeyFile := TLSKeyFile o; TitleFormat := TitleFormat o;
     EnableReconnect := EnableReconnect o; ReconnectTime := ReconnectTime o;
     Once := Once o |}.
Definition set_EnableTLS (v : bool) (o : Options) : Options :=
  {| Address := Address o; Port := Port o; PermitWrite := PermitWrite o;
     EnableBasicAuth := EnableBasicAuth o; Credential := Credential o;
     EnableRandomUrl := EnableRandomUrl o; RandomUrlLength := RandomUrlLength o;
     ProfileFile := ProfileFile o; EnableTLS := v; TLSCrtFile := TLSCrtFile o;
     TLSKeyFile := TLSKeyFile o; TitleFormat := TitleFormat o;
     EnableReconnect := EnableReconnect o; ReconnectTime := ReconnectTime o;
     Once := Once o |}.
Definition set_TLSCrtFile (v : string) (o : Options) : Options :=
  {| Address := Address o; Port := Port o; PermitWrite := PermitWrite o;
     EnableBasicAuth := EnableBasicAuth o; Credential := Credential o;
     EnableRandomUrl := EnableRandomUrl o; RandomUrlLength := RandomUrlLength o;
     ProfileFile := ProfileFile o; EnableTLS := EnableTLS o; TLSCrtFile := v;
     TLSKeyFile := TLSKeyFile o; TitleFormat := TitleFormat o;
     EnableReconnect := EnableReconnect o; ReconnectTime := ReconnectTime o;
     Once := Once o |}.
Definition set_TLSKeyFile (v : string) (o : Options) : Options :=
  {| Address := Address o; Port := Port o; PermitWrite := PermitWrite o;
     EnableBasicAuth := EnableBasicAuth o; Credential := Credential o;
     EnableRandomUrl := EnableRandomUrl o; RandomUrlLength := RandomUrlLength o;
     ProfileFile := ProfileFile o; EnableTLS := EnableTLS o;
     TLSCrtFile := TLSCrtFile o; TLSKeyFile := v; TitleFormat := TitleFormat o;
     EnableReconnect := EnableReconnect o; ReconnectTime := ReconnectTime o;
     Once := Once o |}.
Definition set_TitleFormat (v : string) (o : Options) : Options :=
  {| Address := Address o; Port := Port o; PermitWrite := PermitWrite o;
     EnableBasicAuth := EnableBasicAuth o; Credential := Credential o;
     EnableRandomUrl := EnableRandomUrl o; RandomUrlLength := RandomUrlLength o;
     ProfileFile := ProfileFile o; EnableTLS := EnableTLS o;
     TLSCrtFile := TLSCrtFile o; TLSKeyFile := TLSKeyFile o; TitleFormat := v;
     EnableReconnect := EnableReconnect o; ReconnectTime := ReconnectTime o;
     Once := Once o |}.
Definition set_EnableReconnect (v : bool) (o : Options) : Options :=
  {| Address := Address o; Port := Port o; PermitWrite := PermitWrite o;
     EnableBasicAuth := EnableBasicAuth o; Credential := Credential o;
     EnableRandomUrl := EnableRandomUrl o; RandomUrlLength := RandomUrlLength o;
     ProfileFile := ProfileFile o; EnableTLS := EnableTLS o;
     TLSCrtFile := TLSCrtFile o; TLSKeyFile := TLSKeyFile o;
     TitleFormat := TitleFormat o; EnableReconnect := v;
     ReconnectTime := ReconnectTime o; Once := Once o |}.
Definition set_ReconnectTime (v : Z) (o : Options) : Options :=
  {| Address := Address o; Port := Port o; PermitWrite := PermitWrite o;
     EnableBasicAuth := EnableBasicAuth o; Credential := Credential o;
     EnableRandomUrl := EnableRandomUrl o; RandomUrlLength := RandomUrlLength o;
     ProfileFile := ProfileFile o; EnableTLS := EnableTLS o;
     TLSCrtFile := TLSCrtFile o; TLSKeyFile := TLSKeyFile o;
     TitleFormat := TitleFormat o; EnableReconnect := EnableReconnect o;
     ReconnectTime := v; Once := Once o |}.
Definition set_Once (v : bool) (o : Options) : Options :=
  {| Address := Address o; Port := Port o; PermitWrite := PermitWrite o;
     EnableBasicAuth := EnableBasicAuth o; Credential := Credential o;
     EnableRandomUrl := EnableRandomUrl o; RandomUrlLength := RandomUrlLength o;
     ProfileFile := ProfileFile o; EnableTLS := EnableTLS o;
     TLSCrtFile := TLSCrtFile o; TLSKeyFile := TLSKeyFile o;
     TitleFormat := TitleFormat o; EnableReconnect := EnableReconnect o;
     ReconnectTime := ReconnectTime o; Once := v |}.

(** The assignment [f.value.Set(given)] once the kinds agree. *)
Definition Field_store (f : Field) (val : Value) (o : Options) : Options :=
  match f, val with
  | FAddress, VString v => set_Address v o
  | FPort, VString v => set_Port v o
  | FPermitWrite, VBool v => set_PermitWrite v o
  | FEnableBasicAuth, VBool v => set_EnableBasicAuth v o
  | FCredential, VString v => set_Credential v o
  | FEnableRandomUrl, VBool v => set_EnableRandomUrl v o
  | FRandomUrlLength, VInt v => set_RandomUrlLength v o
  | FProfileFile, VString v => set_ProfileFile v o
  | FEnableTLS, VBool v => set_EnableTLS v o
  | FTLSCrtFile, VString v => set_TLSCrtFile v o
  | FTLSKeyFile, VString v => set_TLSKeyFile v o
  | FTitleFormat, VString v => set_TitleFormat v o
  | FEnableReconnect, VBool v => set_EnableReconnect v o
  | FReconnectTime, VInt v => set_ReconnectTime v o
  | FOnce, VBool v => set_Once v o
  | _, _ => o
  end.

(** [Field.Set]: refuses a value whose kind is not the field's, and
    stores it otherwise (every field is exported and settable). *)
Definition Field_Set (f : Field) (val : Value) (o : Options) : Options * option error :=
  if decide (Field_Kind f <> Value_Kind val)
  then (o, Some (errorString ("wrong kind. got: " +:+ Kind_String (Value_Kind val)
                              +:+ " want: " +:+ Kind_String (Field_Kind f))))
  else (Field_store f val o, None).

(** ** The HTTP exchange *)

Record Request := {
  Method : string;
  URL_Path : string;
  Header : gmap string (list string);
  RemoteAddr : string
}.

(** What a handler acts on: the response under construction (its header
    map, the status once [WriteHeader] has run, the body written so far)
    and the lines given to the process-wide logger. *)
Record Exchange := {
  w_header : gmap string (list string);
  w_status : option Z;
  w_body : string;
  logged : list string
}.

Definition Handler : Type := Request -> Exchange -> Exchange.

Definition newExchange : Exchange :=
  {| w_header := ∅; w_status := None; w_body := ""; logged := [] |}.

Definition log_Printf (line : string) (x : Exchange) : Exchange :=
  {| w_header := w_header x; w_status := w_status x; w_body := w_body x;
     logged := logged x ++ [line] |}.

(** [Header.Get]: the first value under the canonical form of the key. *)
Definition Header_Get (h : gmap string (list string)) (key : string) : string :=
  match h !! textproto_CanonicalMIMEHeaderKey key with
  | Some (v :: _) => v
  | _ => ""
  end.

(** [w.Header().Set(key, value)] *)
Definition Header_Set (key value : string) (x : Exchange) : Exchange :=
  {| w_header := <[textproto_CanonicalMIMEHeaderKey key := [value]]> (w_header x);
     w_status := w_status x; w_body := w_body x; logged := logged x |}.

(** [w.WriteHeader(code)]: only the first call sets the status. *)
Definition WriteHeader (code : Z) (x : Exchange) : Exchange :=
  match w_status x with
  | Some _ => x
  | None => {| w_header := w_header x; w_status := Some code; w_body := w_body x;
               logged := logged x |}
  end.

(** [w.Write(data)]: an unset status becomes 200. *)
Definition Write (data : string) (x : Exchange) : Exchange :=
  let x := WriteHeader 200 x in
  {| w_header := w_header x; w_status := w_status x; w_body := w_body x +:+ data;
     logged := logged x |}.

(** [http.Error] *)
Definition http_Error (msg : string) (code : Z) (x : Exchange) : Exchange :=
  let x := Header_Set "Content-Type" "text/plain; charset=utf-8" x in
  let x := Header_Set "X-Content-Type-Options" "nosniff" x in
  let x := WriteHeader code x in
  Write (msg +:+ String "010" EmptyString) x.

Definition StatusUnauthorized : Z := 401.
Definition StatusInternalServerError : Z := 500.

Definition with_URL_Path (p : string) (r : Request) : Request :=
  {| Method := Method r; URL_Path := p; Header := Header r; RemoteAddr := RemoteAddr r |}.

(** [http.StripPrefix] *)
Definition http_StripPrefix (prefix : string) (h : Handler) : Handler :=
  if decide (prefix = "") then h
  else fun r x =>
    if strings_HasPrefix (URL_Path r) prefix
    then h (with_URL_Path (string_drop (String.length prefix) (URL_Path r)) r) x
    else http_Error "404 page not found" 404 x.

(** An interface address, as [listAddresses] tells them apart. *)
Inductive Addr :=
| IPNet (ip : string)
| IPAddr (ip : string)
| OtherAddr.

(** How [Run] starts the server. *)
Inductive ServeCall :=
| ListenAndServe (addr : string) (handler : Handler)
| ListenAndServeTLS (addr : string) (handler : Handler) (certFile keyFile : string).

Definition ServeCall_handler (call : ServeCall) : Handler :=
  match call with
  | ListenAndServe _ handler => handler
  | ListenAndServeTLS _ handler _ _ => handler
  end.

(** ** [App] (app.go, lines 28-37); the upgrader, the server handle and
    the parsed title template play no part below. *)
Record App := {
  command : list string;
  options : Options;
  preferences : gmap string Value
}.

(** What a call of [Run] did: the patterns registered on the mux with
    their handlers, the way the server was started, the lines logged,
    and the error returned. *)
Record Started := {
  siteMux : list (string * Handler);
  served : ServeCall;
  run_logged : list string;
  run_err : option error
}.

(** The outcome of [applyConfigFile]: the record behind the pointer as
    the call left it, the error returned, and the lines logged. *)
Record Applied := {
  applied_options : Options;
  applied_err : option error;
  applied_logged : list string
}.

(** *** Package [encoding/base64]: [StdEncoding.EncodeToString], what a
    client puts after [Basic] *)

Definition base64_alphabet : string :=
  "ABCDEFGHIJKLMNOPQRSTUVWXYZabcdefghijklmnopqrstuvwxyz0123456789+/".

Definition base64_symbol (v : N) : ascii :=
  default "A"%char (String.get (N.to_nat v) base64_alphabet).

(** Three bytes give four symbols; a last group of one or two bytes is
    padded with [=]. *)
Fixpoint base64_StdEncoding_EncodeToString (src : string) : string :=
  match src with
  | EmptyString => EmptyString
  | String a EmptyString =>
      let x := N_of_ascii a in
      String (base64_symbol (x / 4))
        (String (base64_symbol ((x mod 4) * 16)) "==")%N
  | String a (String b EmptyString) =>
      let x := N_of_ascii a in
      let y := N_of_ascii b in
      String (base64_symbol (x / 4))
        (String (base64_symbol ((x mod 4) * 16 + y / 16))
           (String (base64_symbol ((y mod 16) * 4)) "="))%N
  | String a (String b (String c rest)) =>
      let x := N_of_ascii a in
      let y := N_of_ascii b in
      let z := N_of_ascii c in
      String (base64_symbol (x / 4))
        (String (base64_symbol ((x mod 4) * 16 + y / 16))
           (String (base64_symbol ((y mod 16) * 4 + z / 64))
              (String (base64_symbol (z mod 64))
                 (base64_StdEncoding_EncodeToString rest))))%N
  end.

(** ** Reference instances of the environment

    The theorems below hold for every HCL library and every entropy
    source.  To run the package on concrete files, this section gives a
    small instance of each: a decoder for flat HCL documents, where it
    computes what the library computes on them, and a fixed sequence of
    draws. *)

Definition is_blank (c : ascii) : bool := Ascii.eqb c " " || Ascii.eqb c "009".

Fixpoint trim_left (s : string) : string :=
  match s with
  | String c s' => if is_blank c then trim_left s' else s
  | EmptyString => EmptyString
  end.

Definition string_rev (s : string) : string :=
  string_of_list_ascii (rev (list_ascii_of_string s)).

Definition trim (s : string) : string :=
  string_rev (trim_left (string_rev (trim_left s))).

(** An identifier: letters, digits and underscores, not starting with a digit. *)
Definition flat_key (k : string) : bool :=
  negb (is_empty k)
  && string_forallb (fun c => is_lower c || is_upper c || is_digit c || Ascii.eqb c "_") k
  && negb (is_digit (string_head k)).

Definition decimal (s : string) : Z :=
  fold_left (fun acc c => 10 * acc + (Z.of_N (N_of_ascii c) - 48))
            (list_ascii_of_string s) 0.

(** A literal: [true], [false], a decimal number without sign or leading
    zero, or a quoted string without quote, backslash or dollar inside. *)
Definition flat_value (v : string) : option Value :=
  if String.eqb v "true" then Some (VBool true)
  else if String.eqb v "false" then Some (VBool false)
  else if negb (is_empty v) && string_forallb is_digit v
          && (String.eqb v "0" || negb (Ascii.eqb (string_head v) "0"))
  then Some (VInt (decimal v))
  else
    let inner := string_init (string_drop 1 v) in
    if (2 <=? String.length v)%nat
       && Ascii.eqb (string_head v) "034" && Ascii.eqb (string_last v) "034"
       && string_forallb (fun c => negb (Ascii.eqb c "034" || Ascii.eqb c "\"
                                         || Ascii.eqb c "$")) inner
    then Some (VString inner)
    else None.

(** One line [key = literal]. *)
Definition flat_line (line : string) : option (string * Value) :=
  match strings_Index line "=" with
  | None => None
  | Some m =>
      let key := trim (string_take m line) in
      if flat_key key
      then v ← flat_value (trim (string_drop (S m) line)); Some (key, v)
      else None
  end.

Fixpoint flat_lines (lines : list string) (seen : list (string * Value))
  : list (string * Value) + error :=
  match lines with
  | [] => inl seen
  | line :: rest =>
      if is_empty (trim line) then flat_lines rest seen
      else match flat_line line with
           | Some (key, v) =>
               if existsb (fun kv => String.eqb (fst kv) key) seen
               then inr (errorString "flat HCL: a key assigned twice")
               else flat_lines rest (seen ++ [(key, v)])
           | None => inr (errorString "flat HCL: not an assignment of a literal")
           end
  end.

(** Documents of assignments [key = literal], one per line, each key
    once; anything else is refused. *)
Definition flat_Parse (input : string) : list (string * Value) + error :=
  flat_lines (strings_SplitN input (String "010" EmptyString) (-1)) [].

Definition flat_DecodeObject (out : gmap string Value) (obj : list (string * Value))
  : gmap string Value * option error :=
  (fold_left (fun m kv => <[fst kv := snd kv]> m) obj out, None).

(** A fixed sequence of draws, each below [max], from a reader that
    never fails; a reader that always fails; and the allocation limit
    of a 64-bit Linux. *)
Definition sample_rand_Int (i : nat) (max : Z) : option Z :=
  Some ((7 * Z.of_nat i + 3) mod max).

Definition failing_rand_Int (i : nat) (max : Z) : option Z := None.

Definition sample_maxAlloc : N := 2 ^ 48.

(** A handler that leaves the exchange as it is. *)
Definition idle : Handler := fun _ x => x.

(** What [idle] leaves behind one more log line. *)
Definition idle_after (line : string) (x : Exchange) : Exchange :=
  idle {| Method := ""; URL_Path := ""; Header := ∅; RemoteAddr := "" |} (log_Printf line x).

(** Sample data: an environment, a request carrying one [Authorization]
    value, and the rest of the program reduced to handlers that do
    nothing and a server that ends without error. *)
Definition sample_env : gmap string string := {[ "HOME" := "/home/gotty" ]}.

Definition request_with_authorization (path value : string) : Request :=
  {| Method := "GET"; URL_Path := path;
     Header := {[ "Authorization" := [value] ]};
     RemoteAddr := "192.0.2.7:51234" |}.

Definition sample_mux : list (string * Handler) -> Handler := fun _ => idle.
Definition sample_serveClient : list string -> Handler := fun _ => idle.
Definition sample_url (scheme host path : string) : string := scheme +:+ "://" +:+ host +:+ path.
Definition sample_serve : ServeCall -> option error := fun _ => None.

(** A title-template parser that accepts every format and keeps its text. *)
Definition sample_template_Parse (format : string) : string + error := inl format.

(** A request with a method and a path and no header. *)
Definition bare_request (method path : string) : Request :=
  {| Method := method; URL_Path := path; Header := ∅; RemoteAddr := "192.0.2.7:51234" |}.

Definition sample_app (o : Options) : App :=
  {| command := ["bash"]; options := o; preferences := ∅ |}.

(** ** The package *)

Section App.

(** *** What the package is linked against and runs in *)

(** [strings.ToLower] on a string that is not pure ASCII (the Unicode
    case tables). *)
Variable unicode_ToLower : string -> string.

(** The HCL library: the parser, and the decoder of a parsed document
    into a [map[string]interface{}] that may already hold entries. *)
Variable hcl_Object : Type.
Variable hcl_Parse : string -> hcl_Object + error.
Variable hcl_DecodeObject :
  gmap string Value -> hcl_Object -> gmap string Value * option error.

(** [rand.Int(rand.Reader, max)]: the value of the [i]-th draw, or [None]
    when the reader fails; the call then returns a nil [*big.Int] beside
    the error, and the source discards the error. *)
Variable rand_Int : nat -> Z -> option Z.

(** The largest length the runtime grants to [make([]byte, n)]; a
    negative length or a longer one panics with [makeslice: len out of
    range] (on a 64-bit Linux the limit is [2^48] at most). *)
Variable maxAlloc : N.

(** The file system and the process environment. *)
Variable fs : gmap string Node.
Variable env : gmap string string.

(** The HTTP stack and the rest of the program: the file server over
    the embedded assets, the mux dispatch, the session behind an
    upgraded socket, the rendering of a URL, the network interfaces
    with their addresses, and what serving ends with. *)
Variable staticHandler : Handler.
Variable ServeMux_ServeHTTP : list (string * Handler) -> Handler.
Variable serveClient : list string -> Handler.
Variable url_String : string -> string -> string -> string.
Variable net_Interfaces : list (list Addr).
Variable serve : ServeCall -> option error.

(** [strings.ToLower] *)
Definition strings_ToLower (s : string) : string :=
  if isASCII s then string_map to_lower s else unicode_ToLower s.

(** [hcl.Decode]: a document that does not parse leaves [out] as it was. *)
Definition hcl_Decode (out : gmap string Value) (input : string)
  : gmap string Value * option error :=
  match hcl_Parse input with
  | inr err => (out, Some err)
  | inl obj => hcl_DecodeObject out obj
  end.

(** *** [expandHomeDir] (lines 141-147) *)
Definition expandHomeDir (path : string) : Go string :=
  head2 ← slice path 0 2;
  if decide (head2 = "~/")
  then rest ← slice_from path 1; mret (os_Getenv env "HOME" +:+ rest)
  else mret path.

(** *** [applyConfigFile] (lines 108-139) *)

(** The key a field is looked up under. *)
Definition configName (name : string) : string :=
  strings_ToLower (strings_Join (camelcase_Split name) "_").

(** The loop over [o.Names()] (lines 124-136), on the record [options]
    points to: the first error ends it, with the fields set so far kept. *)
Fixpoint applyNames (config : gmap string Value) (names : list string)
  (options : Options) : Options * option error :=
  match names with
  | [] => (options, None)
  | name :: rest =>
      match config !! configName name with
      | Some val =>
          match FieldOk name with
          | None => (options, Some (errors_New ("No such field: " +:+ name)))
          | Some field =>
              match Field_Set field val options with
              | (options', Some err) => (options', Some err)
              | (options', None) => applyNames config rest options'
              end
          end
      | None => applyNames config rest options
      end
  end.

Definition applyConfigFile (options : Options) (filePath : string) : Go Applied :=
  filePath ← expandHomeDir filePath;
  let err := os_Stat fs filePath in
  if os_IsNotExist err
  then mret {| applied_options := options; applied_err := err; applied_logged := [] |}
  else
    let lines := ["Loading config file at: " +:+ filePath] in
    let '(fileString, err) := ioutil_ReadFile fs filePath in
    match err with
    | Some _ =>
        mret {| applied_options := options; applied_err := err; applied_logged := lines |}
    | None =>
        let '(config, _) := hcl_Decode ∅ fileString in
        let '(options', err) := applyNames config Names options in
        mret {| applied_options := options'; applied_err := err; applied_logged := lines |}
    end.

(** [ApplyConfigFile] (lines 101-106) *)
Definition ApplyConfigFile (options : Options) (configFilePath : string) : Go Applied :=
  applyConfigFile options configFilePath.

(** The record behind the pointer after a call: a panic leaves it as it
    was, since [expandHomeDir] runs before anything is written. *)
Definition options_after (options : Options) (outcome : Go Applied) : Options :=
  match outcome with
  | Ret a => applied_options a
  | Panic _ => options
  end.

(** *** [loadProfileFile] (lines 149-169): the map (nil is the empty
    map), the error, and the lines logged *)
Definition loadProfileFile (options : Options)
  : gmap string Value * option error * list string :=
  let prefPath :=
    if decide (ProfileFile options = ProfileFile DefaultOptions)
    then os_Getenv env "HOME" +:+ "/.gotty.prf"
    else ProfileFile options in
  let err := os_Stat fs prefPath in
  let read : option (string * list string) :=
    if os_IsNotExist err then
      if decide (ProfileFile options <> ProfileFile DefaultOptions)
      then None
      else Some ("", [])
    else Some (fst (ioutil_ReadFile fs prefPath), ["Loading profile path: " +:+ prefPath]) in
  match read with
  | None => (∅, err, [])
  | Some (prefString, lines) =>
      match hcl_Decode ∅ prefString with
      | (_, Some err) => (∅, Some err, lines)
      | (prefMap, None) => (prefMap, None, lines)
      end
  end.

(** *** [generateRandomString] (lines 327-336) *)

(** [c.Int64()] on the result of [rand.Int]: a nil [c] is a nil-pointer
    dereference. *)
Definition big_Int_Int64 (c : option Z) : Go Z :=
  match c with
  | Some c => Ret (big_Int64 c)
  | None => Panic "runtime error: invalid memory address or nil pointer dereference"
  end.

(** The loop over the indices of [n], from draw [i] on: the bytes, and
    the number of the next draw. *)
Fixpoint randomBytes (count : nat) (i : nat) : Go (string * nat) :=
  match count with
  | O => mret (EmptyString, i)
  | S count' =>
      let c := rand_Int i 36 in
      c64 ← big_Int_Int64 c;
      digits ← strconv_FormatInt c64 36;
      b ← index digits 0;
      '(rest, next) ← randomBytes count' (S i);
      mret (String b rest, next)
  end.

(** The string, and the number of the next draw. *)
Definition generateRandomString (length : Z) (i : nat) : Go (string * nat) :=
  if (length <? 0) || (Z.of_N maxAlloc <? length)
  then Panic "runtime error: makeslice: len out of range"
  else randomBytes (Z.to_nat length) i.

(** *** [wrapLogger] (lines 293-298) *)
Definition wrapLogger (handler : Handler) : Handler :=
  fun r x => handler r (log_Printf (Method r +:+ " " +:+ URL_Path r) x).

(** *** [wrapBasicAuth] (lines 300-325) *)
Definition challenge : string := "Basic realm=" +:+ dq +:+ "GoTTY" +:+ dq.

Definition wrapBasicAuth (handler : Handler) (credential : string) : Handler :=
  fun r x =>
    let token := strings_SplitN (Header_Get (Header r) "Authorization") " " 2 in
    if bool_decide (length token <> 2%nat)
       || bool_decide (strings_ToLower (nth 0 token "") <> "basic")
    then
      let x := Header_Set "WWW-Authenticate" challenge x in
      http_Error "Bad Request" StatusUnauthorized x
    else
      match base64_StdEncoding_DecodeString (nth 1 token "") with
      | None => http_Error "Internal Server Error" StatusInternalServerError x
      | Some payload =>
          if bool_decide (credential <> payload)
          then
            let x := Header_Set "WWW-Authenticate" challenge x in
            http_Error "authorization failed" StatusUnauthorized x
          else
            let x := log_Printf ("Basic Authentication Succeeded: " +:+ RemoteAddr r) x in
            handler r x
      end.

(** *** [handleWS] (lines 252-283), up to the upgrade *)
Definition handleWS (app : App) : Handler :=
  fun r x =>
    let x := log_Printf ("New client connected: " +:+ RemoteAddr r) x in
    if bool_decide (Method r <> "GET")
    then http_Error "Method not allowed" 405 x
    else serveClient (command app) r x.

(** *** [listAddresses] (lines 338-356) *)
Definition listAddresses : list string :=
  flat_map (fun ifAddrs =>
              flat_map (fun ifAddr =>
                          match ifAddr with
                          | IPNet ip => [ip]
                          | IPAddr ip => [ip]
                          | OtherAddr => []
                          end) ifAddrs)
           net_Interfaces.

(** *** [Run] (lines 171-250) *)
Definition Run (app : App) (draw : nat) : Go Started :=
  let o := options app in
  let lines :=
    if PermitWrite o then ["Permitting clients to write input to the PTY."] else [] in
  path ← (if EnableRandomUrl o
          then '(s, _) ← generateRandomString (RandomUrlLength o) draw;
               mret ("" +:+ "/" +:+ s)
          else mret "");
  let endpoint := net_JoinHostPort (Address o) (Port o) in
  let wsHandler := handleWS app in
  let lines :=
    lines ++ (if Once o then ["Once option is provided, accepting only one client"] else []) in
  let mux := [(path +:+ "/", http_StripPrefix (path +:+ "/") staticHandler);
              (path +:+ "/ws", wsHandler)] in
  let siteHandler := ServeMux_ServeHTTP mux in
  let lines := lines ++ (if EnableBasicAuth o then ["Using Basic Authentication"] else []) in
  let siteHandler :=
    if EnableBasicAuth o then wrapBasicAuth siteHandler (Credential o) else siteHandler in
  let siteHandler := wrapLogger siteHandler in
  let scheme := if EnableTLS o then "https" else "http" in
  let lines :=
    lines ++ ["Server is starting with command: " +:+ strings_Join (command app) " "] in
  let lines :=
    lines ++
    (if bool_decide (Address o <> "")
     then ["URL: " +:+ url_String scheme endpoint (path +:+ "/")]
     else map (fun address =>
                 "URL: " +:+ url_String scheme (net_JoinHostPort address (Port o))
                               (path +:+ "/"))
              listAddresses) in
  call ← (if EnableTLS o
          then certFile ← expandHomeDir (TLSCrtFile o);
               keyFile ← expandHomeDir (TLSKeyFile o);
               mret (ListenAndServeTLS endpoint siteHandler certFile keyFile)
          else mret (ListenAndServe endpoint siteHandler));
  let err := serve call in
  mret {| siteMux := mux; served := call;
          run_logged := (match err with Some _ => lines | None => lines ++ ["Exiting..."] end);
          run_err := err |}.

(** *** Notions the properties are stated with *)

(** The payload of an [Authorization] header of the form
    [<scheme> <payload>] whose scheme is [basic] in any letter case. *)
Definition basic_payload (r : Request) : option string :=
  match strings_SplitN (Header_Get (Header r) "Authorization") " " 2 with
  | [scheme; payload] =>
      if decide (strings_ToLower scheme = "basic") then Some payload else None
  | _ => None
  end.

(** The wrapper hands the request to the inner handler, whatever that
    handler is, after its one log line. *)
Definition forwards (credential : string) (r : Request) (x : Exchange) : Prop :=
  forall inner : Handler,
    wrapBasicAuth inner credential r x
    = inner r (log_Printf ("Basic Authentication Succeeded: " +:+ RemoteAddr r) x).

(** A 401 answer carrying the Basic challenge. *)
Definition challenged (x : Exchange) : Prop :=
  w_status x = Some 401 /\ Header_Get (w_header x) "WWW-Authenticate" = challenge.

(** The file [loadProfileFile] reads: the default name stands for
    [$HOME/.gotty.prf], any other name for itself. *)
Definition profilePath (options : Options) : string :=
  if decide (ProfileFile options = ProfileFile DefaultOptions)
  then os_Getenv env "HOME" +:+ "/.gotty.prf"
  else ProfileFile options.

(** A lower-case base-36 digit. *)
Definition base36_digit (c : ascii) : bool := is_digit c || is_lower c.

(** The keys the loader looks up: one per field. *)
Definition configNames : list string := map configName Names.

(** *** [New] (lines 75-99) *)

(** [template.New("title").Parse]: the parsed title template, or the
    parse error. *)
Variable Template : Type.
Variable template_Parse : string -> Template + error.

(** The new [App] with its title template (nil and an error when the
    title format or the profile cannot be loaded), and the lines logged. *)
Definition New (command : list string) (options : Options)
  : option (App * Template) * option error * list string :=
  match template_Parse (TitleFormat options) with
  | inr _ => (None, Some (errors_New "Title format string syntax error"), [])
  | inl titleTemplate =>
      let '(prefMap, err, lines) := loadProfileFile options in
      match err with
      | Some _ => (None, err, lines)
      | None =>
          (Some ({| command := command; options := options; preferences := prefMap |},
                 titleTemplate),
           None, lines)
      end
  end.

(** *** Further notions *)

(** The request carries the configured credential. *)
Definition authorized (credential : string) (r : Request) : Prop :=
  exists payload, basic_payload r = Some payload
                  /\ base64_StdEncoding_DecodeString payload = Some credential.

(** The line [wrapLogger] writes for a request. *)
Definition access_line (r : Request) : string := Method r +:+ " " +:+ URL_Path r.

(** The options [Run] gets through without a panic: when a segment is
    asked for, a segment length that [make] grants (not negative, not
    above the limit), and TLS files of at least two bytes when TLS is on. *)
Definition startable (o : Options) : Prop :=
  (EnableRandomUrl o = true -> 0 <= RandomUrlLength o <= Z.of_N maxAlloc)
  /\ (EnableTLS o = true -> 2 <= len (TLSCrtFile o) /\ 2 <= len (TLSKeyFile o)).

(** The key a field is set from. *)
Definition Field_key (f : Field) : string := configName (Field_Name f).

(** A logged line that announces a URL. *)
Definition is_URL_line (line : string) : bool := strings_HasPrefix line "URL: ".

(** ** Properties *)

(** *** Slicing *)

Lemma string_take_all (s : string) : string_take (String.length s) s = s.
Proof. induction s as [|c s IH]; simpl; [reflexivity | now rewrite IH]. Qed.

Lemma string_drop_length (n : nat) (s : string) :
  String.length (string_drop n s) = (String.length s - n)%nat.
Proof.
  revert s; induction n as [|n IH]; intros s; simpl.
  - lia.
  - destruct s as [|c s]; simpl; [reflexivity | apply IH].
Qed.

Lemma slice_from_ok (s : string) (lo : nat) :
  (lo <= String.length s)%nat ->
  slice_from s (Z.of_nat lo) = Ret (string_drop lo s).
Proof.
  intros Hlo. unfold slice_from, slice, len.
  destruct (decide _) as [_|Hn]; [|lia].
  rewrite Nat2Z.id.
  replace (Z.to_nat (Z.of_nat (String.length s) - Z.of_nat lo))
    with (String.length (string_drop lo s))
    by (rewrite string_drop_length; lia).
  now rewrite string_take_all.
Qed.

Lemma slice_short (s : string) (hi : Z) : len s < hi -> panics (slice s 0 hi).
Proof.
  intros H. unfold slice. destruct (decide _) as [Hy|_]; [lia|].
  eexists; reflexivity.
Qed.

(** *** [expandHomeDir] *)

(** C9.  [expandHomeDir] is partial.  On a path of at least two bytes it
    returns [$HOME] followed by the path without its leading [~] when
    the path starts with [~/], and the path itself otherwise; on a path
    of fewer than two bytes (the empty path included) the slice
    [path[0:2]] is out of bounds and the call panics. *)
Theorem expandHomeDir_partial (path : string) :
  (2 <= len path ->
     (forall rest, path = "~/" +:+ rest ->
        expandHomeDir path = Ret (os_Getenv env "HOME" +:+ string_drop 1 path))
     /\ ((forall rest, path <> "~/" +:+ rest) -> expandHomeDir path = Ret path))
  /\ (len path < 2 -> panics (expandHomeDir path)).
Proof.
  split.
  - intros Hlen.
    destruct path as [|a [|b rest]]; try (unfold len in Hlen; simpl in Hlen; lia).
    assert (Hs : slice (String a (String b rest)) 0 2 = Ret (String a (String b EmptyString))).
    { unfold slice. destruct (decide _) as [_|Hn]; [reflexivity|].
      exfalso; apply Hn; unfold len in *; lia. }
    unfold expandHomeDir. rewrite Hs. cbn [mbind Go_bind].
    split.
    + intros rest' Hp. injection Hp as -> -> ->.
      destruct (decide _) as [_|Hne]; [|congruence].
      rewrite (slice_from_ok _ 1) by (simpl; lia). reflexivity.
    + intros Hp. destruct (decide _) as [He|_]; [|reflexivity].
      injection He as -> ->. now destruct (Hp rest).
  - intros Hlen. unfold expandHomeDir.
    destruct (slice_short path 2 Hlen) as [msg ->]. eexists; reflexivity.
Qed.

Lemma expandHomeDir_tilde (rest : string) :
  expandHomeDir ("~/" +:+ rest) = Ret (os_Getenv env "HOME" +:+ "/" +:+ rest).
Proof.
  unfold expandHomeDir.
  assert (Hs : slice ("~/" +:+ rest) 0 2 = Ret "~/").
  { unfold slice. destruct (decide _) as [_|Hn]; [reflexivity|].
    exfalso; apply Hn; unfold len; simpl; lia. }
  rewrite Hs. cbn [mbind Go_bind]. destruct (decide _) as [_|Hne]; [|congruence].
  rewrite (slice_from_ok _ 1) by (simpl; lia). reflexivity.
Qed.

(** *** Loading the configuration file *)

(** C10.  When the expanded path names no existing file, config loading
    returns the not-exist error of [os.Stat] and the record is exactly
    the one passed in (and nothing was logged). *)
Theorem applyConfigFile_missing (options : Options) (filePath expanded : string) :
  expandHomeDir filePath = Ret expanded ->
  os_IsNotExist (os_Stat fs expanded) = true ->
  exists err,
    applyConfigFile options filePath
    = Ret {| applied_options := options; applied_err := Some err; applied_logged := [] |}
    /\ os_IsNotExist (Some err) = true.
Proof.
  intros Hexp Hstat. unfold applyConfigFile. rewrite Hexp. cbn [mbind Go_bind].
  rewrite Hstat.
  destruct (os_Stat fs expanded) as [err|] eqn:E; [|discriminate].
  exists err. split; [reflexivity | exact Hstat].
Qed.

(** What loading does with a file that is there and readable. *)
Lemma applyConfigFile_readable (options : Options) (filePath expanded doc : string) :
  expandHomeDir filePath = Ret expanded ->
  fs !! expanded = Some (Regular doc) ->
  applyConfigFile options filePath
  = Ret (let '(options', err) := applyNames (hcl_Decode ∅ doc).1 Names options in
         {| applied_options := options'; applied_err := err;
            applied_logged := ["Loading config file at: " +:+ expanded] |}).
Proof.
  intros Hexp Hfile. unfold applyConfigFile. rewrite Hexp. cbn [mbind Go_bind].
  unfold os_Stat, ioutil_ReadFile. rewrite Hfile. cbn [os_IsNotExist].
  destruct (hcl_Decode ∅ doc) as [config derr]. cbn [fst].
  destruct (applyNames config Names options) as [options' err]. reflexivity.
Qed.

(** *** The reflective loop *)

Lemma Field_store_same (f : Field) (val : Value) (o : Options) :
  Field_Value f o = val -> Field_store f val o = o.
Proof. intros <-. destruct f, o; reflexivity. Qed.

Lemma Field_Value_store (f : Field) (val : Value) (o : Options) :
  Field_Kind f = Value_Kind val -> Field_Value f (Field_store f val o) = val.
Proof. destruct f, val; intros H; try discriminate H; reflexivity. Qed.

Lemma Field_Value_store_other (f g : Field) (val : Value) (o : Options) :
  f <> g -> Field_Value g (Field_store f val o) = Field_Value g o.
Proof. intros Hne. destruct f, g; try congruence; destruct val; reflexivity. Qed.

Lemma Field_Set_ok (f : Field) (val : Value) (o : Options) :
  Field_Kind f = Value_Kind val -> Field_Set f val o = (Field_store f val o, None).
Proof. intros H. unfold Field_Set. destruct (decide _); [contradiction | reflexivity]. Qed.

Lemma Field_Set_wrong_kind (f : Field) (val : Value) (o : Options) :
  Field_Kind f <> Value_Kind val ->
  exists err, forall o', Field_Set f val o' = (o', Some err).
Proof.
  intros H. eexists. intros o'. unfold Field_Set.
  destruct (decide _); [reflexivity | contradiction].
Qed.

(** A field that no remaining name stands for keeps its value. *)
Lemma applyNames_frame (config : gmap string Value) (names : list string) :
  forall (o : Options) (g : Field),
    g ∉ omap FieldOk names ->
    Field_Value g (applyNames config names o).1 = Field_Value g o.
Proof.
  induction names as [|name rest IH]; intros o g Hg; [reflexivity|].
  cbn [applyNames omap list_omap] in *.
  destruct (config !! configName name) as [val|].
  - destruct (FieldOk name) as [f|]; [|reflexivity].
    apply not_elem_of_cons in Hg as [Hgf Hg].
    destruct (decide (Field_Kind f = Value_Kind val)) as [Hk|Hk].
    + rewrite (Field_Set_ok _ _ _ Hk). rewrite IH by assumption.
      apply Field_Value_store_other. congruence.
    + destruct (Field_Set_wrong_kind f val o Hk) as [err Herr].
      rewrite Herr. reflexivity.
  - destruct (FieldOk name); [apply not_elem_of_cons in Hg as [_ Hg]|]; now apply IH.
Qed.

(** Running the loop on its own result changes nothing more. *)
Lemma applyNames_idempotent (config : gmap string Value) (names : list string) :
  NoDup (omap FieldOk names) ->
  forall o : Options,
    applyNames config names (applyNames config names o).1 = applyNames config names o.
Proof.
  induction names as [|name rest IH]; intros Hnd o; [reflexivity|].
  cbn [applyNames omap list_omap] in *.
  destruct (config !! configName name) as [val|].
  - destruct (FieldOk name) as [f|]; [|reflexivity].
    apply NoDup_cons in Hnd as [Hf Hnd].
    destruct (decide (Field_Kind f = Value_Kind val)) as [Hk|Hk].
    + rewrite (Field_Set_ok _ _ o Hk).
      set (o1 := (applyNames config rest (Field_store f val o)).1).
      rewrite (Field_Set_ok _ _ o1 Hk).
      assert (Hsame : Field_store f val o1 = o1).
      { apply Field_store_same. unfold o1.
        rewrite applyNames_frame by assumption. now apply Field_Value_store. }
      rewrite Hsame. unfold o1. now apply IH.
    + destruct (Field_Set_wrong_kind f val o Hk) as [err Herr].
      repeat (rewrite Herr; cbn [fst]). reflexivity.
  - destruct (FieldOk name); [apply NoDup_cons in Hnd as [_ Hnd]|]; now apply IH.
Qed.

Lemma Names_fields_NoDup : NoDup (omap FieldOk Names).
Proof. apply (bool_decide_unpack _). vm_compute. exact I. Qed.

(** A key that no name is looked up under plays no part. *)
Lemma applyNames_delete (config : gmap string Value) (k : string) (names : list string) :
  k ∉ map configName names ->
  forall o : Options, applyNames (delete k config) names o = applyNames config names o.
Proof.
  induction names as [|name rest IH]; intros Hk o; [reflexivity|].
  cbn [applyNames map] in *. apply not_elem_of_cons in Hk as [Hne Hk].
  rewrite lookup_delete_ne by congruence.
  destruct (config !! configName name) as [val|]; [|now apply IH].
  destruct (FieldOk name) as [f|]; [|reflexivity].
  destruct (Field_Set f val o) as [o' [err|]]; [reflexivity | now apply IH].
Qed.

Lemma applyNames_no_known_key (config : gmap string Value) (names : list string) :
  (forall key, key ∈ map configName names -> config !! key = None) ->
  forall o : Options, applyNames config names o = (o, None).
Proof.
  induction names as [|name rest IH]; intros Hk o; [reflexivity|].
  cbn [applyNames map] in *.
  rewrite (Hk (configName name)) by (apply elem_of_cons; now left).
  apply IH. intros key Hin. apply Hk. apply elem_of_cons; now right.
Qed.

(** C8.  Loading the same file twice gives what loading it once gives:
    a second call on the record the first call left returns the same
    outcome, so the record after two calls is the record after one. *)
Theorem applyConfigFile_idempotent (options : Options) (filePath : string) :
  let once := applyConfigFile options filePath in
  let twice := applyConfigFile (options_after options once) filePath in
  twice = once
  /\ options_after (options_after options once) twice = options_after options once.
Proof.
  cbv zeta.
  assert (H : applyConfigFile (options_after options (applyConfigFile options filePath)) filePath
              = applyConfigFile options filePath).
  { unfold applyConfigFile.
    destruct (expandHomeDir filePath) as [expanded|msg]; [|reflexivity].
    cbn [mbind Go_bind].
    destruct (os_IsNotExist (os_Stat fs expanded)); [reflexivity|].
    destruct (ioutil_ReadFile fs expanded) as [fileString [rerr|]]; [reflexivity|].
    destruct (hcl_Decode ∅ fileString) as [config derr].
    pose proof (applyNames_idempotent config Names Names_fields_NoDup options) as Hidem.
    destruct (applyNames config Names options) as [options' err] eqn:E.
    cbn [mret Go_ret options_after applied_options fst] in *.
    rewrite Hidem. reflexivity. }
  split; [exact H|].
  rewrite H. destruct (applyConfigFile options filePath); reflexivity.
Qed.

(** C2, as the code has it.  A key that is the snake-case name of no
    field is ignored, not rejected: an entry under such a key in the map
    that [hcl.Decode] left is never applied and never an error.  Loading
    a readable file returns what the loop over the fields returns on
    that map without the entry, and when no key of the map is a field's
    name it returns no error and leaves the record as it was. *)
Theorem applyConfigFile_ignores_unknown_keys
  (options : Options) (filePath expanded doc : string) :
  expandHomeDir filePath = Ret expanded ->
  fs !! expanded = Some (Regular doc) ->
  let config := (hcl_Decode ∅ doc).1 in
  let lines := ["Loading config file at: " +:+ expanded] in
  (forall k, k ∉ configNames ->
     applyConfigFile options filePath
     = Ret (let '(options', err) := applyNames (delete k config) Names options in
            {| applied_options := options'; applied_err := err; applied_logged := lines |}))
  /\ ((forall key, key ∈ configNames -> config !! key = None) ->
      applyConfigFile options filePath
      = Ret {| applied_options := options; applied_err := None; applied_logged := lines |}).
Proof.
  intros Hexp Hfile config lines.
  rewrite (applyConfigFile_readable options filePath expanded doc Hexp Hfile).
  fold config. split.
  - intros k Hk. now rewrite applyNames_delete.
  - intros Hnone. now rewrite applyNames_no_known_key.
Qed.

(** *** Loading the profile file *)

(** C3.  With the default profile name and no file at
    [$HOME/.gotty.prf], loading succeeds with an empty map; with another
    name and no file of that name, it returns the not-exist error; and
    when the file is there, the map decoded from its contents is
    returned.  (The first case decodes the empty document, which the
    HCL library accepts.) *)
Theorem loadProfileFile_cases (options : Options) :
  hcl_Decode ∅ "" = (∅, None) ->
  (ProfileFile options = ProfileFile DefaultOptions ->
   os_IsNotExist (os_Stat fs (os_Getenv env "HOME" +:+ "/.gotty.prf")) = true ->
   loadProfileFile options = (∅, None, []))
  /\ (ProfileFile options <> ProfileFile DefaultOptions ->
      os_IsNotExist (os_Stat fs (ProfileFile options)) = true ->
      exists err, loadProfileFile options = (∅, Some err, [])
                  /\ os_IsNotExist (Some err) = true)
  /\ (forall doc prefMap,
        fs !! profilePath options = Some (Regular doc) ->
        hcl_Decode ∅ doc = (prefMap, None) ->
        loadProfileFile options
        = (prefMap, None, ["Loading profile path: " +:+ profilePath options])).
Proof.
  intros Hempty. repeat split.
  - intros Hdef Hstat. unfold loadProfileFile.
    destruct (decide (ProfileFile options = ProfileFile DefaultOptions)); [|contradiction].
    rewrite Hstat.
    destruct (decide (ProfileFile options <> ProfileFile DefaultOptions)); [contradiction|].
    now rewrite Hempty.
  - intros Hdef Hstat. unfold loadProfileFile.
    destruct (decide (ProfileFile options = ProfileFile DefaultOptions)); [contradiction|].
    rewrite Hstat.
    destruct (decide (ProfileFile options <> ProfileFile DefaultOptions)); [|contradiction].
    destruct (os_Stat fs (ProfileFile options)) as [err|]; [|discriminate].
    exists err. split; [reflexivity | exact Hstat].
  - intros doc prefMap Hfile Hdec. unfold loadProfileFile. fold (profilePath options).
    unfold os_Stat, ioutil_ReadFile. rewrite Hfile. cbn [os_IsNotExist fst].
    now rewrite Hdec.
Qed.

(** C4.  The two loaders disagree on a document that does not parse:
    config loading drops the error of [hcl.Decode], applies nothing and
    returns no error, while profile loading returns that error. *)
Theorem Decode_error_dropped_by_config_returned_by_profile
  (options : Options) (filePath expanded doc : string) (err : error) :
  hcl_Parse doc = inr err ->
  (expandHomeDir filePath = Ret expanded ->
   fs !! expanded = Some (Regular doc) ->
   applyConfigFile options filePath
   = Ret {| applied_options := options; applied_err := None;
            applied_logged := ["Loading config file at: " +:+ expanded] |})
  /\ (fs !! profilePath options = Some (Regular doc) ->
      loadProfileFile options
      = (∅, Some err, ["Loading profile path: " +:+ profilePath options])).
Proof.
  intros Hparse.
  assert (Hdec : hcl_Decode ∅ doc = (∅, Some err)).
  { unfold hcl_Decode. now rewrite Hparse. }
  split.
  - intros Hexp Hfile.
    rewrite (applyConfigFile_readable options filePath expanded doc Hexp Hfile).
    rewrite Hdec. cbn [fst].
    rewrite applyNames_no_known_key; [reflexivity|].
    intros key _. apply lookup_empty.
  - intros Hfile. unfold loadProfileFile. fold (profilePath options).
    unfold os_Stat, ioutil_ReadFile. rewrite Hfile. cbn [os_IsNotExist fst].
    now rewrite Hdec.
Qed.

(** *** The random path segment *)

(** [make] grants a length from zero up to the limit, and no other. *)
Lemma generateRandomString_granted (length : Z) (i : nat) :
  0 <= length <= Z.of_N maxAlloc ->
  generateRandomString length i = randomBytes (Z.to_nat length) i.
Proof.
  intros H. unfold generateRandomString.
  destruct (Z.ltb_spec length 0) as [Hneg|_]; [lia|].
  destruct (Z.ltb_spec (Z.of_N maxAlloc) length) as [Hbig|_]; [lia|]. reflexivity.
Qed.

Lemma generateRandomString_refused (length : Z) (i : nat) :
  length < 0 \/ Z.of_N maxAlloc < length -> panics (generateRandomString length i).
Proof.
  intros H. unfold generateRandomString.
  destruct (Z.ltb_spec length 0) as [Hneg|Hpos]; [eexists; reflexivity|].
  destruct (Z.ltb_spec (Z.of_N maxAlloc) length) as [Hbig|Hsmall]; [eexists; reflexivity|].
  lia.
Qed.

(** A draw that fails ends the loop in a nil-pointer panic. *)
Lemma generateRandomString_failed_draw (length : Z) (i : nat) :
  0 < length <= Z.of_N maxAlloc ->
  rand_Int i 36 = None ->
  panics (generateRandomString length i).
Proof.
  intros H Hfail. rewrite generateRandomString_granted by lia.
  destruct (Z.to_nat length) as [|count] eqn:E; [lia|].
  cbn [randomBytes]. rewrite Hfail. eexists; reflexivity.
Qed.

(** The contract of [rand.Int] on a reader that works: a value in [[0, max)]. *)
Hypothesis rand_Int_range :
  forall (i : nat) (max : Z), 0 < max -> exists c, rand_Int i max = Some c /\ 0 <= c < max.

Lemma big_Int64_small (c : Z) : 0 <= c < 36 -> big_Int64 c = c.
Proof.
  intros H. unfold big_Int64.
  rewrite Z.mod_small; [lia|].
  change (2 ^ 63) with 9223372036854775808.
  change (2 ^ 64) with 18446744073709551616. lia.
Qed.

Lemma formatBits_small (fuel : nat) (u base : Z) (acc : string) :
  u < base -> formatBits (S fuel) u base acc = String (strconv_digit u) acc.
Proof. intros H. cbn [formatBits]. now apply Z.ltb_lt in H as ->. Qed.

Lemma FormatInt_digit (c : Z) :
  0 <= c < 36 -> strconv_FormatInt c 36 = Ret (String (strconv_digit c) EmptyString).
Proof.
  intros H. unfold strconv_FormatInt. cbn [Z.ltb Z.compare orb Pos.compare Pos.compare_cont].
  destruct (Z.ltb_spec c 0) as [Hneg|_]; [lia|].
  change 64%nat with (S 63). now rewrite formatBits_small by lia.
Qed.

Lemma strconv_digit_base36 (c : Z) : 0 <= c < 36 -> base36_digit (strconv_digit c) = true.
Proof.
  intros H. unfold strconv_digit.
  assert (Hn : (Z.to_nat c < 36)%nat) by lia.
  generalize dependent (Z.to_nat c). intros n Hn.
  do 36 (destruct n as [|n]; [reflexivity|]). lia.
Qed.

Lemma randomBytes_base36 (count : nat) :
  forall i : nat,
    exists s, randomBytes count i = Ret (s, (i + count)%nat)
              /\ String.length s = count
              /\ string_forallb base36_digit s = true.
Proof.
  induction count as [|count IH]; intros i.
  - exists EmptyString. cbn [randomBytes]. rewrite Nat.add_0_r. repeat split.
  - destruct (IH (S i)) as (s & Hs & Hlen & Hall).
    destruct (rand_Int_range i 36 eq_refl) as (c & Hdraw & Hc).
    exists (String (strconv_digit c) s).
    cbn [randomBytes]. rewrite Hdraw. cbn [big_Int_Int64 mbind Go_bind].
    rewrite big_Int64_small, FormatInt_digit by assumption.
    cbn [mbind Go_bind]. unfold index. cbn [String.get].
    destruct (decide (0 <= 0)) as [_|Hn]; [|lia].
    cbn [mbind Go_bind Z.to_nat]. rewrite Hs. cbn [mbind Go_bind mret Go_ret].
    replace (S i + count)%nat with (i + S count)%nat by lia. repeat split.
    + cbn [String.length]. now rewrite Hlen.
    + cbn [string_forallb]. now rewrite strconv_digit_base36, Hall.
Qed.

(** C6, as the code has it.  For every length [n] that [make] grants,
    [0 <= n <= maxAlloc], and a reader that does not fail, the generator
    returns a string of exactly [n] bytes, each a lower-case base-36
    digit ([0]-[9], [a]-[z]), after [n] draws; for a negative length and
    for a length above the limit it panics in [make]. *)
Theorem generateRandomString_base36 (length : Z) (i : nat) :
  (0 <= length <= Z.of_N maxAlloc ->
   exists s, generateRandomString length i = Ret (s, (i + Z.to_nat length)%nat)
             /\ len s = length
             /\ string_forallb base36_digit s = true)
  /\ (length < 0 \/ Z.of_N maxAlloc < length -> panics (generateRandomString length i)).
Proof.
  split; [|apply generateRandomString_refused].
  intros Hlen. rewrite generateRandomString_granted by assumption.
  destruct (randomBytes_base36 (Z.to_nat length) i) as (s & Hs & Hl & Hall).
  exists s. rewrite Hs. repeat split; [|assumption].
  unfold len. rewrite Hl. lia.
Qed.

(** *** The Basic-auth wrapper *)

Lemma logged_http_Error (msg : string) (code : Z) (x : Exchange) :
  logged (http_Error msg code x) = logged x.
Proof. unfold http_Error, Write, WriteHeader, Header_Set. cbn. now destruct (w_status x). Qed.

Lemma w_status_http_Error (msg : string) (code : Z) (x : Exchange) :
  w_status x = None -> w_status (http_Error msg code x) = Some code.
Proof. intros H. unfold http_Error, Write, WriteHeader, Header_Set. cbn. now rewrite H. Qed.

Lemma w_header_http_Error (msg : string) (code : Z) (x : Exchange) :
  w_header (http_Error msg code x)
  = <["X-Content-Type-Options" := ["nosniff"]]>
      (<["Content-Type" := ["text/plain; charset=utf-8"]]> (w_header x)).
Proof. unfold http_Error, Write, WriteHeader, Header_Set. cbn. now destruct (w_status x). Qed.

(** [http.Error] leaves the challenge header as it finds it. *)
Lemma challenge_http_Error (msg : string) (code : Z) (x : Exchange) :
  Header_Get (w_header (http_Error msg code x)) "WWW-Authenticate"
  = Header_Get (w_header x) "WWW-Authenticate".
Proof.
  rewrite w_header_http_Error. unfold Header_Get.
  change (textproto_CanonicalMIMEHeaderKey "WWW-Authenticate") with "Www-Authenticate".
  now rewrite !lookup_insert_ne by discriminate.
Qed.

Lemma challenged_reject (msg : string) (x : Exchange) :
  w_status x = None ->
  challenged (http_Error msg StatusUnauthorized (Header_Set "WWW-Authenticate" challenge x)).
Proof.
  intros H. split.
  - now apply w_status_http_Error.
  - rewrite challenge_http_Error. unfold Header_Get, Header_Set. cbn [w_header].
    now rewrite lookup_insert_eq.
Qed.

(** The wrapper, by the payload of the header. *)
Lemma wrapBasicAuth_cases (handler : Handler) (credential : string) (r : Request) (x : Exchange) :
  wrapBasicAuth handler credential r x
  = match basic_payload r with
    | None =>
        http_Error "Bad Request" StatusUnauthorized
          (Header_Set "WWW-Authenticate" challenge x)
    | Some payload =>
        match base64_StdEncoding_DecodeString payload with
        | None => http_Error "Internal Server Error" StatusInternalServerError x
        | Some decoded =>
            if decide (decoded = credential)
            then handler r (log_Printf ("Basic Authentication Succeeded: " +:+ RemoteAddr r) x)
            else http_Error "authorization failed" StatusUnauthorized
                   (Header_Set "WWW-Authenticate" challenge x)
        end
    end.
Proof.
  unfold wrapBasicAuth, basic_payload.
  destruct (strings_SplitN _ " " 2) as [|scheme [|payload [|third more]]]; try reflexivity.
  cbn [length nth]. rewrite bool_decide_false by auto. cbn [orb].
  destruct (decide (strings_ToLower scheme = "basic")) as [Hs|Hs].
  - rewrite bool_decide_false by auto.
    destruct (base64_StdEncoding_DecodeString payload) as [decoded|]; [|reflexivity].
    destruct (decide (decoded = credential)) as [->|Hne].
    + now rewrite bool_decide_false by auto.
    + now rewrite bool_decide_true by congruence.
  - now rewrite bool_decide_true by assumption.
Qed.

Lemma missing_header_no_payload (r : Request) :
  Header r !! "Authorization" = None -> basic_payload r = None.
Proof.
  intros H. unfold basic_payload, Header_Get.
  change (textproto_CanonicalMIMEHeaderKey "Authorization") with "Authorization".
  now rewrite H.
Qed.

(** A rejection logs nothing, so it is never what the inner handler
    [idle] would have left behind the wrapper's log line. *)
Lemma http_Error_not_forwarded (msg : string) (code : Z) (x x' : Exchange) (line : string) :
  logged x' = logged x -> http_Error msg code x' <> idle_after line x.
Proof.
  intros Hl Heq. apply (f_equal logged) in Heq.
  rewrite logged_http_Error, Hl in Heq. unfold idle_after, log_Printf in Heq. cbn in Heq.
  apply (f_equal length) in Heq. rewrite length_app in Heq. cbn in Heq. lia.
Qed.

(** C1, as the code has it.  The wrapper forwards a request exactly when
    its [Authorization] header has the scheme Basic (in any letter case)
    and a payload whose base64 decoding is, byte for byte, the
    credential.  A request without the header, or with a header that is
    not [basic <payload>], is answered 401 with the challenge; so is one
    whose payload decodes to something else.  A payload that is not
    base64 is answered 500, and no challenge is added.  None of this
    looks at the route. *)
Theorem wrapBasicAuth_gate
  (handler : Handler) (credential : string) (r : Request) (x : Exchange) :
  w_status x = None ->
  let answer := wrapBasicAuth handler credential r x in
  (forwards credential r x <->
   exists payload, basic_payload r = Some payload
                   /\ base64_StdEncoding_DecodeString payload = Some credential)
  /\ (Header r !! "Authorization" = None -> challenged answer)
  /\ (basic_payload r = None -> challenged answer)
  /\ (forall payload decoded,
        basic_payload r = Some payload ->
        base64_StdEncoding_DecodeString payload = Some decoded ->
        decoded <> credential -> challenged answer)
  /\ (forall payload,
        basic_payload r = Some payload ->
        base64_StdEncoding_DecodeString payload = None ->
        w_status answer = Some 500
        /\ Header_Get (w_header answer) "WWW-Authenticate"
           = Header_Get (w_header x) "WWW-Authenticate").
Proof.
  intros Hfresh answer. unfold answer. clear answer.
  assert (Hnone : basic_payload r = None ->
                  challenged (wrapBasicAuth handler credential r x)).
  { intros Hp. rewrite wrapBasicAuth_cases, Hp. now apply challenged_reject. }
  split; [|split; [|split; [|split]]].
  - unfold forwards. split.
    + intros Hfw. specialize (Hfw idle). rewrite wrapBasicAuth_cases in Hfw.
      destruct (basic_payload r) as [payload|].
      * destruct (base64_StdEncoding_DecodeString payload) as [decoded|] eqn:Hd.
        -- destruct (decide (decoded = credential)) as [->|Hne]; [now exists payload|].
           now apply http_Error_not_forwarded in Hfw.
        -- now apply http_Error_not_forwarded in Hfw.
      * now apply http_Error_not_forwarded in Hfw.
    + intros (payload & Hp & Hd) inner. rewrite wrapBasicAuth_cases, Hp, Hd.
      destruct (decide (credential = credential)); [reflexivity | contradiction].
  - intros Hmiss. apply Hnone. now apply missing_header_no_payload.
  - exact Hnone.
  - intros payload decoded Hp Hd Hne. rewrite wrapBasicAuth_cases, Hp, Hd.
    destruct (decide (decoded = credential)); [contradiction|].
    now apply challenged_reject.
  - intros payload Hp Hd. rewrite wrapBasicAuth_cases, Hp, Hd. split.
    + now apply w_status_http_Error.
    + apply challenge_http_Error.
Qed.

(** *** [Run] *)

Lemma generateRandomString_zero (i : nat) :
  generateRandomString 0 i = Ret (EmptyString, i).
Proof. rewrite generateRandomString_granted by lia. reflexivity. Qed.

(** The URL prefix [Run] computes, once the random segment is known to
    be generated. *)
Lemma Run_prefix (o : Options) (draw : nat) :
  (EnableRandomUrl o = true -> 0 <= RandomUrlLength o <= Z.of_N maxAlloc) ->
  exists path : string,
    (if EnableRandomUrl o
     then '(s, _) ← generateRandomString (RandomUrlLength o) draw; mret ("" +:+ "/" +:+ s)
     else mret "") = Ret path.
Proof.
  intros Hlen. destruct (EnableRandomUrl o); [|now exists ""].
  specialize (Hlen eq_refl). rewrite generateRandomString_granted by assumption.
  destruct (randomBytes_base36 (Z.to_nat (RandomUrlLength o)) draw) as (s & -> & _).
  now eexists.
Qed.

(** C5.  The default record names [~/.gotty.key] as the certificate file
    and [~/.gotty.crt] as the key file; and with TLS enabled [Run]
    starts the server with the home-expanded [TLSCrtFile] as certificate
    and the home-expanded [TLSKeyFile] as key, so with the defaults with
    [$HOME/.gotty.key] as certificate and [$HOME/.gotty.crt] as key.
    (A run gets to start the server when the random segment, if one is
    asked for, has a length that [make] grants.) *)
Theorem Run_TLS_paths (app : App) (draw : nat) :
  let o := options app in
  TLSCrtFile DefaultOptions = "~/.gotty.key"
  /\ TLSKeyFile DefaultOptions = "~/.gotty.crt"
  /\ (EnableTLS o = true ->
      (EnableRandomUrl o = true -> 0 <= RandomUrlLength o <= Z.of_N maxAlloc) ->
      (forall certFile keyFile,
         expandHomeDir (TLSCrtFile o) = Ret certFile ->
         expandHomeDir (TLSKeyFile o) = Ret keyFile ->
         exists st addr h,
           Run app draw = Ret st /\ served st = ListenAndServeTLS addr h certFile keyFile)
      /\ (TLSCrtFile o = TLSCrtFile DefaultOptions ->
          TLSKeyFile o = TLSKeyFile DefaultOptions ->
          exists st addr h,
            Run app draw = Ret st
            /\ served st = ListenAndServeTLS addr h
                             (os_Getenv env "HOME" +:+ "/.gotty.key")
                             (os_Getenv env "HOME" +:+ "/.gotty.crt"))).
Proof.
  intros o. split; [reflexivity|]. split; [reflexivity|].
  intros Htls Hlen.
  assert (Hgen : forall certFile keyFile,
             expandHomeDir (TLSCrtFile o) = Ret certFile ->
             expandHomeDir (TLSKeyFile o) = Ret keyFile ->
             exists st addr h,
               Run app draw = Ret st /\ served st = ListenAndServeTLS addr h certFile keyFile).
  { intros certFile keyFile Hc Hk.
    destruct (Run_prefix o draw Hlen) as [path Hpath].
    unfold Run. fold o. rewrite Hpath, Htls, Hc, Hk. cbn [mbind Go_bind mret Go_ret].
    do 3 eexists. split; reflexivity. }
  split; [exact Hgen|].
  intros Hc Hk. apply Hgen.
  - rewrite Hc. apply (expandHomeDir_tilde ".gotty.key").
  - rewrite Hk. apply (expandHomeDir_tilde ".gotty.crt").
Qed.

(** C7, on the code.  With the random URL enabled and length 0 the
    prefix is [/], not empty: whenever [Run] gets to start the server,
    the static route was registered at [//] and the upgrade route at
    [//ws]; and without TLS it always gets there. *)
Theorem Run_random_url_length_zero (app : App) (draw : nat) :
  let o := options app in
  (EnableRandomUrl o = true -> RandomUrlLength o = 0 ->
   forall st, Run app draw = Ret st -> map fst (siteMux st) = ["//"; "//ws"])
  /\ (EnableRandomUrl o = true -> RandomUrlLength o = 0 -> EnableTLS o = false ->
      exists st, Run app draw = Ret st /\ map fst (siteMux st) = ["//"; "//ws"]).
Proof.
  intros o.
  assert (Hrun : EnableRandomUrl o = true -> RandomUrlLength o = 0 ->
                 forall st, Run app draw = Ret st -> map fst (siteMux st) = ["//"; "//ws"]).
  { intros Hrand Hzero st. unfold Run. fold o.
    rewrite Hrand, Hzero, generateRandomString_zero. cbn [mbind Go_bind mret Go_ret].
    destruct (EnableTLS o).
    - destruct (expandHomeDir (TLSCrtFile o)) as [certFile|]; [|discriminate].
      destruct (expandHomeDir (TLSKeyFile o)) as [keyFile|]; [|discriminate].
      cbn [mbind Go_bind mret Go_ret]. intros [= <-]. reflexivity.
    - cbn [mbind Go_bind mret Go_ret]. intros [= <-]. reflexivity. }
  split; [exact Hrun|].
  intros Hrand Hzero Htls.
  assert (exists st, Run app draw = Ret st) as [st Hst].
  { unfold Run. fold o. rewrite Hrand, Hzero, generateRandomString_zero, Htls.
    cbn [mbind Go_bind mret Go_ret]. now eexists. }
  exists st. split; [exact Hst | now apply Hrun].
Qed.

(** With basic auth enabled, the handler the server is started with is
    the wrapper around the whole mux, under the request logger: the
    static and the upgrade route are behind the same check. *)
Lemma Run_basic_auth_wraps_mux (app : App) (draw : nat) (st : Started) :
  EnableBasicAuth (options app) = true ->
  Run app draw = Ret st ->
  ServeCall_handler (served st)
  = wrapLogger (wrapBasicAuth (ServeMux_ServeHTTP (siteMux st)) (Credential (options app))).
Proof.
  intros Hauth. unfold Run. rewrite Hauth.
  destruct (if EnableRandomUrl (options app) then _ else _) as [path|]; [|discriminate].
  cbn [mbind Go_bind mret Go_ret].
  destruct (EnableTLS (options app)).
  - destruct (expandHomeDir (TLSCrtFile (options app))) as [certFile|]; [|discriminate].
    destruct (expandHomeDir (TLSKeyFile (options app))) as [keyFile|]; [|discriminate].
    cbn [mbind Go_bind mret Go_ret]. intros [= <-]. reflexivity.
  - cbn [mbind Go_bind mret Go_ret]. intros [= <-]. reflexivity.
Qed.

(** ** Further properties *)

(** *** The reflective loop, field by field *)

Lemma FieldOk_Some (name : string) (f : Field) : FieldOk name = Some f -> Field_Name f = name.
Proof.
  unfold FieldOk. intros H. apply find_some in H as [_ H]. now apply String.eqb_eq.
Qed.

Lemma FieldOk_Field_Name (f : Field) : FieldOk (Field_Name f) = Some f.
Proof. destruct f; reflexivity. Qed.

Lemma Field_Name_in_Names (f : Field) : Field_Name f ∈ Names.
Proof. apply list_elem_of_In. destruct f; cbn; tauto. Qed.

Lemma Names_FieldOk (name : string) : name ∈ Names -> is_Some (FieldOk name).
Proof.
  intros H. apply list_elem_of_In in H. cbn in H.
  repeat (destruct H as [<-|H]; [eexists; reflexivity|]). contradiction.
Qed.

(** A field whose key the document lacks keeps its value, whatever the
    names looped over. *)
Lemma applyNames_absent_key (config : gmap string Value) (f : Field) (names : list string) :
  config !! Field_key f = None ->
  forall o : Options, Field_Value f (applyNames config names o).1 = Field_Value f o.
Proof.
  intros Hnone. induction names as [|name rest IH]; intros o; [reflexivity|].
  cbn [applyNames].
  destruct (config !! configName name) as [val|] eqn:Hval; [|apply IH].
  destruct (FieldOk name) as [g|] eqn:Hg; [|reflexivity].
  assert (Hne : g <> f).
  { intros ->. apply FieldOk_Some in Hg. unfold Field_key in Hnone.
    rewrite Hg in Hnone. congruence. }
  destruct (decide (Field_Kind g = Value_Kind val)) as [Hk|Hk].
  - rewrite (Field_Set_ok _ _ _ Hk), IH. now apply Field_Value_store_other.
  - destruct (Field_Set_wrong_kind g val o Hk) as [err ->]. reflexivity.
Qed.

(** When the loop ends without error, a field whose key the document
    has holds the document's value. *)
Lemma applyNames_present_key (config : gmap string Value) (f : Field) (val : Value)
  (names : list string) :
  config !! Field_key f = Some val ->
  NoDup (omap FieldOk names) ->
  Field_Name f ∈ names ->
  forall o o' : Options,
    applyNames config names o = (o', None) -> Field_Value f o' = val.
Proof.
  intros Hval. induction names as [|name rest IH]; intros Hnd Hin o o' Hrun.
  - now apply elem_of_nil in Hin.
  - cbn [applyNames omap list_omap] in *.
    destruct (decide (name = Field_Name f)) as [->|Hne].
    + unfold Field_key in Hval. rewrite Hval, FieldOk_Field_Name in *.
      apply NoDup_cons in Hnd as [Hf _].
      destruct (decide (Field_Kind f = Value_Kind val)) as [Hk|Hk].
      * rewrite (Field_Set_ok _ _ _ Hk) in Hrun.
        replace o' with (applyNames config rest (Field_store f val o)).1
          by now rewrite Hrun.
        rewrite applyNames_frame by assumption. now apply Field_Value_store.
      * destruct (Field_Set_wrong_kind f val o Hk) as [err Herr].
        rewrite Herr in Hrun. discriminate.
    + apply elem_of_cons in Hin as [Hin|Hin]; [congruence|].
      assert (Hnd' : NoDup (omap FieldOk rest)).
      { destruct (FieldOk name); [now apply NoDup_cons in Hnd as [_ ?] | assumption]. }
      destruct (config !! configName name) as [v|]; [|now apply (IH Hnd' Hin o)].
      destruct (FieldOk name) as [g|]; [|discriminate].
      destruct (Field_Set g v o) as [o1 [err|]]; [discriminate|].
      now apply (IH Hnd' Hin o1).
Qed.

(** The loop fails exactly on a value of the wrong kind, and says so. *)
Lemma applyNames_error (config : gmap string Value) (names : list string) :
  (forall name, name ∈ names -> is_Some (FieldOk name)) ->
  forall (o : Options) (e : error),
    (applyNames config names o).2 = Some e ->
    exists f val,
      Field_Name f ∈ names
      /\ config !! Field_key f = Some val
      /\ Field_Kind f <> Value_Kind val
      /\ e = errorString ("wrong kind. got: " +:+ Kind_String (Value_Kind val)
                          +:+ " want: " +:+ Kind_String (Field_Kind f)).
Proof.
  induction names as [|name rest IH]; intros Hok o e Hrun; [discriminate|].
  cbn [applyNames] in Hrun.
  assert (Hrest : forall n, n ∈ rest -> is_Some (FieldOk n)).
  { intros n Hn. apply Hok, elem_of_cons. now right. }
  assert (Hstep : forall o1, (applyNames config rest o1).2 = Some e ->
            exists f val, Field_Name f ∈ name :: rest /\ config !! Field_key f = Some val
              /\ Field_Kind f <> Value_Kind val
              /\ e = errorString ("wrong kind. got: " +:+ Kind_String (Value_Kind val)
                                  +:+ " want: " +:+ Kind_String (Field_Kind f))).
  { intros o1 H1. destruct (IH Hrest o1 e H1) as (f & val & Hin & Hrem).
    exists f, val. split; [apply elem_of_cons; now right | exact Hrem]. }
  destruct (config !! configName name) as [val|] eqn:Hval; [|now apply (Hstep o)].
  destruct (Hok name) as [g Hg]; [apply elem_of_cons; now left|].
  rewrite Hg in Hrun. pose proof (FieldOk_Some _ _ Hg) as Hname.
  unfold Field_Set in Hrun.
  destruct (decide (Field_Kind g <> Value_Kind val)) as [Hk|Hk].
  - injection Hrun as <-. exists g, val. unfold Field_key. rewrite Hname.
    repeat split; try assumption. apply elem_of_cons. now left.
  - now apply (Hstep (Field_store g val o)).
Qed.

Lemma applyNames_wrong_kind_fails (config : gmap string Value) (f : Field) (val : Value)
  (names : list string) :
  config !! Field_key f = Some val ->
  Field_Kind f <> Value_Kind val ->
  Field_Name f ∈ names ->
  forall o : Options, (applyNames config names o).2 <> None.
Proof.
  intros Hval Hk. induction names as [|name rest IH]; intros Hin o.
  - now apply elem_of_nil in Hin.
  - cbn [applyNames].
    destruct (decide (name = Field_Name f)) as [->|Hne].
    + unfold Field_key in Hval. rewrite Hval, FieldOk_Field_Name.
      destruct (Field_Set_wrong_kind f val o Hk) as [err ->]. discriminate.
    + apply elem_of_cons in Hin as [Hin|Hin]; [congruence|].
      destruct (config !! configName name) as [v|]; [|now apply IH].
      destruct (FieldOk name) as [g|]; [|discriminate].
      destruct (Field_Set g v o) as [o1 [err|]]; [discriminate | now apply IH].
Qed.

(** *** Loading the configuration file, field by field *)

(** X1.  Config loading changes a field only through its own key: a
    field whose snake-case key the decoded document lacks has, after the
    call, the value it had before, whatever else the document holds and
    however the call ends. *)
Theorem applyConfigFile_keeps_absent_fields
  (options : Options) (filePath : string) (f : Field) :
  (forall expanded doc,
     expandHomeDir filePath = Ret expanded ->
     fs !! expanded = Some (Regular doc) ->
     (hcl_Decode ∅ doc).1 !! Field_key f = None) ->
  Field_Value f (options_after options (applyConfigFile options filePath))
  = Field_Value f options.
Proof.
  intros Hkey. unfold applyConfigFile.
  destruct (expandHomeDir filePath) as [expanded|msg] eqn:Hexp; [|reflexivity].
  cbn [mbind Go_bind].
  destruct (os_IsNotExist (os_Stat fs expanded)); [reflexivity|].
  unfold ioutil_ReadFile.
  destruct (fs !! expanded) as [[doc|errno partial|errno]|] eqn:Hfile; try reflexivity.
  specialize (Hkey expanded doc eq_refl Hfile).
  destruct (hcl_Decode ∅ doc) as [config derr]. cbn [fst] in Hkey.
  pose proof (applyNames_absent_key config f Names Hkey options) as H.
  destruct (applyNames config Names options) as [options' err]. exact H.
Qed.

(** X2.  When loading a readable file returns no error, every field
    whose key the decoded document has holds the document's value. *)
Theorem applyConfigFile_success_sets_fields
  (options : Options) (filePath expanded doc : string) (a : Applied) :
  expandHomeDir filePath = Ret expanded ->
  fs !! expanded = Some (Regular doc) ->
  applyConfigFile options filePath = Ret a ->
  applied_err a = None ->
  forall f val,
    (hcl_Decode ∅ doc).1 !! Field_key f = Some val ->
    Field_Value f (applied_options a) = val.
Proof.
  intros Hexp Hfile Hrun Herr f val Hval.
  rewrite (applyConfigFile_readable options filePath expanded doc Hexp Hfile) in Hrun.
  destruct (applyNames (hcl_Decode ∅ doc).1 Names options) as [options' err] eqn:Hloop.
  injection Hrun as <-. cbn [applied_err applied_options] in *. subst err.
  exact (applyNames_present_key _ f val Names Hval Names_fields_NoDup
           (Field_Name_in_Names f) options options' Hloop).
Qed.

(** X3.  Loading a readable file returns; it returns an error exactly
    when some field's key holds a value whose kind is not the field's,
    and the error is then the message of such a field, a field whose
    key holds a value of another kind, naming the two kinds.  (A
    document that does not decode is no error here.) *)
Theorem applyConfigFile_error_iff_wrong_kind
  (options : Options) (filePath expanded doc : string) :
  expandHomeDir filePath = Ret expanded ->
  fs !! expanded = Some (Regular doc) ->
  let config := (hcl_Decode ∅ doc).1 in
  exists a,
    applyConfigFile options filePath = Ret a
    /\ (applied_err a <> None <->
        exists f val, config !! Field_key f = Some val /\ Field_Kind f <> Value_Kind val)
    /\ (forall e, applied_err a = Some e ->
        exists f val,
          config !! Field_key f = Some val
          /\ Field_Kind f <> Value_Kind val
          /\ e = errorString ("wrong kind. got: " +:+ Kind_String (Value_Kind val)
                              +:+ " want: " +:+ Kind_String (Field_Kind f))).
Proof.
  intros Hexp Hfile config.
  rewrite (applyConfigFile_readable options filePath expanded doc Hexp Hfile).
  fold config.
  pose proof (applyNames_error config Names Names_FieldOk options) as Herr.
  assert (Hwrong : forall f val, config !! Field_key f = Some val ->
                     Field_Kind f <> Value_Kind val ->
                     (applyNames config Names options).2 <> None).
  { intros f val Hval Hk.
    now apply (applyNames_wrong_kind_fails config f val Names Hval Hk (Field_Name_in_Names f)). }
  destruct (applyNames config Names options) as [options' err]. cbn [snd] in *.
  eexists. split; [reflexivity|]. cbn [applied_err]. split.
  - split.
    + destruct err as [e|]; [|congruence]. intros _.
      destruct (Herr e eq_refl) as (f & val & _ & Hval & Hk & _). now exists f, val.
    + intros (f & val & Hval & Hk). now apply (Hwrong f val).
  - intros e ->. destruct (Herr e eq_refl) as (f & val & _ & Hval & Hk & He).
    now exists f, val.
Qed.

(** X4.  When the path names no readable regular file (nothing, a
    directory, a file that cannot be opened or read), the record is left
    as it was, and a call that returns returns an error. *)
Theorem applyConfigFile_no_regular_file (options : Options) (filePath : string) :
  (forall expanded doc,
     expandHomeDir filePath = Ret expanded -> fs !! expanded <> Some (Regular doc)) ->
  options_after options (applyConfigFile options filePath) = options
  /\ (forall a, applyConfigFile options filePath = Ret a -> is_Some (applied_err a)).
Proof.
  intros Hno. unfold applyConfigFile.
  destruct (expandHomeDir filePath) as [expanded|msg] eqn:Hexp; [|split; [reflexivity|discriminate]].
  cbn [mbind Go_bind]. specialize (Hno expanded).
  unfold os_Stat, ioutil_ReadFile.
  destruct (fs !! expanded) as [[doc|errno partial|errno]|] eqn:Hfile.
  - now destruct (Hno doc eq_refl).
  - cbn. split; [reflexivity|]. intros a [= <-]. now eexists.
  - destruct errno; cbn; (split; [reflexivity|]); intros a [= <-]; now eexists.
  - cbn. split; [reflexivity|]. intros a [= <-]. now eexists.
Qed.

(** X5.  The exported [ApplyConfigFile] panics on a path of fewer than
    two bytes (an empty path, [~], [.]) instead of returning an error,
    whatever the file system holds. *)
Theorem ApplyConfigFile_short_path_panics (options : Options) (configFilePath : string) :
  len configFilePath < 2 -> panics (ApplyConfigFile options configFilePath).
Proof.
  intros Hlen. unfold ApplyConfigFile, applyConfigFile, expandHomeDir.
  destruct (slice_short configFilePath 2 Hlen) as [msg ->]. eexists; reflexivity.
Qed.

Lemma applyNames_app (config : gmap string Value) (pre post : list string) (o : Options) :
  applyNames config (pre ++ post) o
  = match applyNames config pre o with
    | (o', Some err) => (o', Some err)
    | (o', None) => applyNames config post o'
    end.
Proof.
  revert o. induction pre as [|name pre IH]; intros o; [reflexivity|].
  cbn [app applyNames].
  destruct (config !! configName name) as [val|]; [|apply IH].
  destruct (FieldOk name) as [g|]; [|reflexivity].
  destruct (Field_Set g val o) as [o1 [err|]]; [reflexivity | apply IH].
Qed.

Lemma NoDup_omap_app_l {A B} (f : A -> option B) (l k : list A) :
  NoDup (omap f (l ++ k)) -> NoDup (omap f l) /\ forall b, b ∈ omap f k -> b ∉ omap f l.
Proof.
  rewrite omap_app. intros H. apply NoDup_app in H as (Hl & Hdisj & _).
  split; [exact Hl|]. intros b Hk Hb. now apply (Hdisj b Hb).
Qed.

(** X21.  Loading is not all or nothing.  When the first value of the
    wrong kind, in the order of the fields, is the one for field [f],
    loading returns the kind error for [f]; the fields declared before
    [f] whose keys the document has are already set to the document's
    values, and [f] and every field declared after it are as they were,
    whatever the document says about them. *)
Theorem applyConfigFile_stops_at_first_wrong_kind
  (options : Options) (filePath expanded doc : string)
  (pre post : list string) (f : Field) (val : Value) :
  expandHomeDir filePath = Ret expanded ->
  fs !! expanded = Some (Regular doc) ->
  let config := (hcl_Decode ∅ doc).1 in
  Names = pre ++ Field_Name f :: post ->
  config !! Field_key f = Some val ->
  Field_Kind f <> Value_Kind val ->
  (forall g v, Field_Name g ∈ pre -> config !! Field_key g = Some v ->
               Field_Kind g = Value_Kind v) ->
  exists a,
    applyConfigFile options filePath = Ret a
    /\ applied_err a
       = Some (errorString ("wrong kind. got: " +:+ Kind_String (Value_Kind val)
                            +:+ " want: " +:+ Kind_String (Field_Kind f)))
    /\ (forall g v, Field_Name g ∈ pre -> config !! Field_key g = Some v ->
                    Field_Value g (applied_options a) = v)
    /\ (forall g, Field_Name g ∈ Field_Name f :: post ->
                  Field_Value g (applied_options a) = Field_Value g options).
Proof.
  intros Hexp Hfile config Hnames Hval Hk Hpre.
  rewrite (applyConfigFile_readable options filePath expanded doc Hexp Hfile).
  fold config. rewrite Hnames, applyNames_app.
  pose proof Names_fields_NoDup as Hnd. rewrite Hnames in Hnd.
  apply NoDup_omap_app_l in Hnd as [Hndpre Hdisj].
  assert (Hokpre : forall name, name ∈ pre -> is_Some (FieldOk name)).
  { intros name Hin. apply Names_FieldOk. rewrite Hnames. apply elem_of_app. now left. }
  destruct (applyNames config pre options) as [o1 [e|]] eqn:Hrun.
  { destruct (applyNames_error config pre Hokpre options e) as (g & v & Hg & Hv & Hbad & _);
      [now rewrite Hrun|]. now destruct (Hbad (Hpre g v Hg Hv)). }
  cbn [applyNames]. unfold Field_key in Hval. rewrite Hval, FieldOk_Field_Name.
  unfold Field_Set. destruct (decide (Field_Kind f <> Value_Kind val)); [|contradiction].
  eexists. split; [reflexivity|]. cbn [applied_err applied_options].
  split; [reflexivity|]. split.
  - intros g v Hg Hv. exact (applyNames_present_key config g v pre Hv Hndpre Hg options o1 Hrun).
  - intros g Hg. replace o1 with (applyNames config pre options).1 by now rewrite Hrun.
    apply applyNames_frame. apply Hdisj. apply list_elem_of_omap.
    exists (Field_Name g). split; [exact Hg | apply FieldOk_Field_Name].
Qed.

(** *** Loading the profile file: where an error can come from *)

(** X7.  An error of profile loading is either the not-exist error of
    [os.Stat] on an explicitly named file, or an error of [hcl.Decode];
    it is never an error of reading the file, which the code drops.  With
    an error the map returned is nil. *)
Theorem loadProfileFile_error_sources (options : Options) (e : error) :
  (loadProfileFile options).1.2 = Some e ->
  (loadProfileFile options).1.1 = ∅
  /\ ((ProfileFile options <> ProfileFile DefaultOptions
       /\ os_Stat fs (ProfileFile options) = Some e
       /\ os_IsNotExist (Some e) = true)
      \/ (exists doc prefMap, hcl_Decode ∅ doc = (prefMap, Some e))).
Proof.
  unfold loadProfileFile.
  destruct (decide (ProfileFile options = ProfileFile DefaultOptions)) as [Hdef|Hdef].
  - destruct (os_IsNotExist (os_Stat fs _)).
    + destruct (decide (ProfileFile options <> ProfileFile DefaultOptions)); [contradiction|].
      destruct (hcl_Decode ∅ "") as [prefMap [err|]] eqn:Hd; cbn; [|discriminate].
      intros [= ->]. split; [reflexivity|]. right. exists "", prefMap. exact Hd.
    + destruct (hcl_Decode ∅ (ioutil_ReadFile fs _).1) as [prefMap [err|]] eqn:Hd;
        cbn; [|discriminate].
      intros [= ->]. split; [reflexivity|]. right. eexists _, prefMap. exact Hd.
  - destruct (os_IsNotExist (os_Stat fs (ProfileFile options))) eqn:Hstat.
    + destruct (decide (ProfileFile options <> ProfileFile DefaultOptions)); [|contradiction].
      cbn. intros Herr. split; [reflexivity|]. left. rewrite Herr in Hstat. now repeat split.
    + destruct (hcl_Decode ∅ (ioutil_ReadFile fs _).1) as [prefMap [err|]] eqn:Hd;
        cbn; [|discriminate].
      intros [= ->]. split; [reflexivity|]. right. eexists _, prefMap. exact Hd.
Qed.

(** *** [expandHomeDir], twice *)

(** X8.  When [$HOME] is an absolute path, expansion is stable: a path
    that [expandHomeDir] returns is returned unchanged when expanded
    again. *)
Theorem expandHomeDir_stable (path expanded : string) :
  strings_HasPrefix (os_Getenv env "HOME") "/" = true ->
  expandHomeDir path = Ret expanded ->
  expandHomeDir expanded = Ret expanded.
Proof.
  intros Hhome. unfold expandHomeDir at 1.
  destruct path as [|a [|b rest]].
  - destruct (slice_short "" 2) as [msg ->]; [unfold len; simpl; lia | discriminate].
  - destruct (slice_short (String a "") 2) as [msg ->]; [unfold len; simpl; lia | discriminate].
  - assert (Hs : slice (String a (String b rest)) 0 2 = Ret (String a (String b EmptyString))).
    { unfold slice. destruct (decide _) as [_|Hn]; [reflexivity|].
      exfalso; apply Hn; unfold len; simpl; lia. }
    rewrite Hs. cbn [mbind Go_bind].
    assert (Hplain : forall c d tail, String c (String d EmptyString) <> "~/" ->
              expandHomeDir (String c (String d tail)) = Ret (String c (String d tail))).
    { intros c d tail Hne. unfold expandHomeDir.
      assert (Hs' : slice (String c (String d tail)) 0 2 = Ret (String c (String d EmptyString))).
      { unfold slice. destruct (decide _) as [_|Hn]; [reflexivity|].
        exfalso; apply Hn; unfold len; simpl; lia. }
      rewrite Hs'. cbn [mbind Go_bind]. now destruct (decide _). }
    destruct (decide _) as [Heq|Hne].
    + rewrite (slice_from_ok _ 1) by (simpl; lia). cbn [mbind Go_bind mret Go_ret string_drop].
      intros [= <-]. injection Heq as -> ->.
      destruct (os_Getenv env "HOME") as [|h home]; [discriminate|].
      cbn [strings_HasPrefix] in Hhome. apply andb_prop in Hhome as [Hh _].
      apply Ascii.eqb_eq in Hh. subst h.
      destruct home as [|h2 home]; cbn; apply Hplain; discriminate.
    + cbn [mret Go_ret]. intros [= <-]. now apply Hplain.
Qed.

(** *** [New] *)

(** X9.  [New] returns an [App] exactly when it returns no error, which
    is exactly when the title format parses and the profile loads.  The
    [App] then holds the command and the options it was given and the
    loaded preferences.  A title format that does not parse is answered
    before the profile is looked at, and with a fixed message in place of
    the parser's. *)
Theorem New_outcome (cmd : list string) (opts : Options) :
  let app := (New cmd opts).1.1 in
  let err := (New cmd opts).1.2 in
  (is_Some app <-> err = None)
  /\ (err = None <->
      (exists t, template_Parse (TitleFormat opts) = inl t)
      /\ (loadProfileFile opts).1.2 = None)
  /\ (forall a t, app = Some (a, t) ->
        command a = cmd /\ options a = opts
        /\ preferences a = (loadProfileFile opts).1.1
        /\ template_Parse (TitleFormat opts) = inl t)
  /\ (forall e, template_Parse (TitleFormat opts) = inr e ->
        New cmd opts = (None, Some (errorString "Title format string syntax error"), [])).
Proof.
  cbv zeta. unfold New.
  destruct (template_Parse (TitleFormat opts)) as [t|e].
  - destruct (loadProfileFile opts) as [[prefMap [perr|]] lines]; cbn [fst snd].
    + split; [split; [intros [? [=]] | discriminate]|].
      split; [split; [discriminate | intros [_ [=]]]|].
      split; [intros a0 t0 [=] | intros e0 [=]].
    + split; [split; [reflexivity | now eexists]|].
      split; [split; [intros _; split; [now exists t | reflexivity] | reflexivity]|].
      split; [intros a0 t0 [= <- <-]; repeat split | intros e0 [=]].
  - cbn [fst snd].
    split; [split; [intros [? [=]] | discriminate]|].
    split; [split; [discriminate | intros [[t0 [=]] _]]|].
    split; [intros a0 t0 [=] | intros e0 _; reflexivity].
Qed.

(** X10.  Start-up without a profile file: with a title format that
    parses, [New] on the default profile name succeeds with no
    preferences and logs nothing when [$HOME/.gotty.prf] does not exist,
    and on any other profile name fails with the not-exist error when
    that file does not exist.  (The first case decodes the empty
    document, which the HCL library accepts.) *)
Theorem New_without_profile_file (cmd : list string) (opts : Options) (t : Template) :
  template_Parse (TitleFormat opts) = inl t ->
  hcl_Decode ∅ "" = (∅, None) ->
  os_IsNotExist (os_Stat fs (profilePath opts)) = true ->
  (ProfileFile opts = ProfileFile DefaultOptions ->
   New cmd opts
   = (Some ({| command := cmd; options := opts; preferences := ∅ |}, t), None, []))
  /\ (ProfileFile opts <> ProfileFile DefaultOptions ->
      New cmd opts
      = (None, Some (PathError "stat" (ProfileFile opts) ENOENT), [])).
Proof.
  intros Ht Hempty Hstat. unfold New, loadProfileFile. rewrite Ht.
  unfold profilePath in Hstat.
  split; intros Hdef.
  - destruct (decide (ProfileFile opts = ProfileFile DefaultOptions)); [|contradiction].
    rewrite Hstat.
    destruct (decide (ProfileFile opts <> ProfileFile DefaultOptions)); [contradiction|].
    now rewrite Hempty.
  - destruct (decide (ProfileFile opts = ProfileFile DefaultOptions)); [contradiction|].
    rewrite Hstat.
    destruct (decide (ProfileFile opts <> ProfileFile DefaultOptions)); [|contradiction].
    unfold os_Stat in *.
    destruct (fs !! ProfileFile opts) as [[doc|errno partial|[]]|]; try discriminate; reflexivity.
Qed.

(** *** The random path segment, byte by byte *)

Lemma randomBytes_digits (count : nat) :
  forall i : nat,
    exists s, randomBytes count i = Ret (s, (i + count)%nat)
              /\ forall k, (k < count)%nat ->
                   exists c, rand_Int (i + k) 36 = Some c
                             /\ String.get k s = Some (strconv_digit c).
Proof.
  induction count as [|count IH]; intros i.
  - exists EmptyString. cbn [randomBytes]. rewrite Nat.add_0_r. split; [reflexivity | lia].
  - destruct (IH (S i)) as (s & Hs & Hget).
    destruct (rand_Int_range i 36 eq_refl) as (c & Hdraw & Hc).
    exists (String (strconv_digit c) s).
    cbn [randomBytes]. rewrite Hdraw. cbn [big_Int_Int64 mbind Go_bind].
    rewrite big_Int64_small, FormatInt_digit by assumption.
    cbn [mbind Go_bind]. unfold index. cbn [String.get].
    destruct (decide (0 <= 0)) as [_|Hn]; [|lia].
    cbn [mbind Go_bind Z.to_nat]. rewrite Hs. cbn [mbind Go_bind mret Go_ret].
    replace (S i + count)%nat with (i + S count)%nat by lia.
    split; [reflexivity|].
    intros [|k] Hk; cbn [String.get].
    + exists c. now rewrite Nat.add_0_r.
    + destruct (Hget k) as (c' & Hc' & Hk'); [lia|].
      exists c'. split; [|exact Hk']. now rewrite Nat.add_succ_r.
Qed.

(** X11.  For a length that [make] grants and a reader that does not
    fail, the [k]-th byte of the generated segment is the base-36 digit
    of the [k]-th value drawn, in the order drawn, and the loop draws
    exactly [length] values. *)
Theorem generateRandomString_digits (length : Z) (i : nat) :
  0 <= length <= Z.of_N maxAlloc ->
  exists s,
    generateRandomString length i = Ret (s, (i + Z.to_nat length)%nat)
    /\ forall k, (k < Z.to_nat length)%nat ->
         exists c, rand_Int (i + k) 36 = Some c
                   /\ String.get k s = Some (strconv_digit c).
Proof.
  intros Hlen. rewrite generateRandomString_granted by assumption.
  destruct (randomBytes_digits (Z.to_nat length) i) as (s & Hs & Hget).
  exists s. rewrite Hs. split; [reflexivity | exact Hget].
Qed.

(** *** Base64: decoding what was encoded *)

Ltac divmod_lia := zify; Z.to_euclidean_division_equations; lia.

Lemma string_triple_ind (P : string -> Prop) :
  P EmptyString ->
  (forall a, P (String a EmptyString)) ->
  (forall a b, P (String a (String b EmptyString))) ->
  (forall a b c rest, P rest -> P (String a (String b (String c rest)))) ->
  forall s, P s.
Proof.
  intros H0 H1 H2 H3 s.
  assert (H : P s /\ (forall a, P (String a s)) /\ (forall a b, P (String a (String b s)))).
  { induction s as [|c s (IH0 & IH1 & IH2)]; [now repeat split|].
    split; [apply IH1 | split; [intros a; apply IH2 | intros a b; now apply H3]]. }
  apply H.
Qed.

Lemma base64_value_symbol (v : N) :
  (v < 64)%N -> base64_value (base64_symbol v) = Some v.
Proof.
  intros H. rewrite <- (N2Nat.id v).
  assert (Hn : (N.to_nat v < 64)%nat) by lia.
  generalize dependent (N.to_nat v). intros n Hn.
  do 64 (destruct n as [|n]; [reflexivity|]). lia.
Qed.

Lemma base64_symbol_plain (v : N) :
  (v < 64)%N ->
  base64_is_pad (base64_symbol v) = false /\ base64_newline (base64_symbol v) = false.
Proof.
  intros H. rewrite <- (N2Nat.id v).
  assert (Hn : (N.to_nat v < 64)%nat) by lia.
  generalize dependent (N.to_nat v). intros n Hn.
  do 64 (destruct n as [|n]; [split; reflexivity|]). lia.
Qed.

Lemma base64_sextets (x y z : N) :
  (x < 256 -> y < 256 -> z < 256 ->
   x / 4 < 64 /\ (x mod 4) * 16 < 64 /\ (x mod 4) * 16 + y / 16 < 64
   /\ (y mod 16) * 4 < 64 /\ (y mod 16) * 4 + z / 64 < 64 /\ z mod 64 < 64)%N.
Proof. intros Hx Hy Hz. repeat split; divmod_lia. Qed.

Lemma base64_bytes (x y z : N) :
  (x < 256 -> y < 256 -> z < 256 ->
   (x / 4 * 4 + ((x mod 4) * 16 + y / 16) / 16) mod 256 = x
   /\ ((((x mod 4) * 16 + y / 16) mod 16) * 16 + ((y mod 16) * 4 + z / 64) / 4) mod 256 = y
   /\ ((((y mod 16) * 4 + z / 64) mod 4) * 64 + z mod 64) mod 256 = z
   /\ (x / 4 * 4 + ((x mod 4) * 16) / 16) mod 256 = x
   /\ ((((x mod 4) * 16 + y / 16) mod 16) * 16 + ((y mod 16) * 4) / 4) mod 256 = y)%N.
Proof. intros Hx Hy Hz. repeat split; divmod_lia. Qed.

(** The encoder writes no line break, so the decoder skips nothing. *)
Lemma base64_encoded_no_newline (s : string) :
  string_filter (fun c => negb (base64_newline c)) (base64_StdEncoding_EncodeToString s)
  = base64_StdEncoding_EncodeToString s.
Proof.
  induction s as [|a|a b|a b c rest IH] using string_triple_ind; [reflexivity| | |].
  all: pose proof (N_ascii_bounded a) as Ha.
  - destruct (base64_sextets (N_of_ascii a) 0 0 Ha) as (H1 & H2 & _); [lia..|].
    cbn [base64_StdEncoding_EncodeToString string_filter].
    rewrite (proj2 (base64_symbol_plain _ H1)), (proj2 (base64_symbol_plain _ H2)).
    reflexivity.
  - pose proof (N_ascii_bounded b) as Hb.
    destruct (base64_sextets (N_of_ascii a) (N_of_ascii b) 0 Ha Hb) as (H1 & _ & H2 & H3 & _);
      [lia|].
    cbn [base64_StdEncoding_EncodeToString string_filter].
    rewrite (proj2 (base64_symbol_plain _ H1)), (proj2 (base64_symbol_plain _ H2)),
      (proj2 (base64_symbol_plain _ H3)).
    reflexivity.
  - pose proof (N_ascii_bounded b) as Hb. pose proof (N_ascii_bounded c) as Hc.
    destruct (base64_sextets (N_of_ascii a) (N_of_ascii b) (N_of_ascii c) Ha Hb Hc)
      as (H1 & _ & H2 & _ & H3 & H4).
    cbn [base64_StdEncoding_EncodeToString string_filter].
    rewrite (proj2 (base64_symbol_plain _ H1)), (proj2 (base64_symbol_plain _ H2)),
      (proj2 (base64_symbol_plain _ H3)), (proj2 (base64_symbol_plain _ H4)).
    cbn [negb]. now rewrite IH.
Qed.

Lemma base64_decode_encoded (s : string) :
  base64_decode (base64_StdEncoding_EncodeToString s) = Some s.
Proof.
  induction s as [|a|a b|a b c rest IH] using string_triple_ind; [reflexivity| | |].
  all: pose proof (N_ascii_bounded a) as Ha.
  - destruct (base64_sextets (N_of_ascii a) 0 0 Ha) as (H1 & H2 & _); [lia..|].
    destruct (base64_bytes (N_of_ascii a) 0 0 Ha) as (_ & _ & _ & E1 & _); [lia..|].
    cbn [base64_StdEncoding_EncodeToString base64_decode].
    rewrite (base64_value_symbol _ H1), (base64_value_symbol _ H2).
    change (base64_is_pad "=") with true. cbn [andb is_empty].
    now rewrite E1, ascii_N_embedding.
  - pose proof (N_ascii_bounded b) as Hb.
    destruct (base64_sextets (N_of_ascii a) (N_of_ascii b) 0 Ha Hb) as (H1 & _ & H2 & H3 & _);
      [lia|].
    destruct (base64_bytes (N_of_ascii a) (N_of_ascii b) 0 Ha Hb) as (E1 & _ & _ & _ & E2);
      [lia|].
    cbn [base64_StdEncoding_EncodeToString base64_decode].
    rewrite (base64_value_symbol _ H1), (base64_value_symbol _ H2),
      (base64_value_symbol _ H3).
    rewrite (proj1 (base64_symbol_plain _ H3)).
    change (base64_is_pad "=") with true. cbn [is_empty].
    now rewrite E1, E2, !ascii_N_embedding.
  - pose proof (N_ascii_bounded b) as Hb. pose proof (N_ascii_bounded c) as Hc.
    destruct (base64_sextets (N_of_ascii a) (N_of_ascii b) (N_of_ascii c) Ha Hb Hc)
      as (H1 & _ & H2 & _ & H3 & H4).
    destruct (base64_bytes (N_of_ascii a) (N_of_ascii b) (N_of_ascii c) Ha Hb Hc)
      as (E1 & E2 & E3 & _).
    cbn [base64_StdEncoding_EncodeToString base64_decode].
    rewrite (base64_value_symbol _ H1), (base64_value_symbol _ H2),
      (base64_value_symbol _ H3), (base64_value_symbol _ H4).
    rewrite (proj1 (base64_symbol_plain _ H3)), (proj1 (base64_symbol_plain _ H4)).
    now rewrite IH, E1, E2, E3, !ascii_N_embedding.
Qed.

Lemma base64_DecodeString_EncodeToString (s : string) :
  base64_StdEncoding_DecodeString (base64_StdEncoding_EncodeToString s) = Some s.
Proof.
  unfold base64_StdEncoding_DecodeString.
  now rewrite base64_encoded_no_newline, base64_decode_encoded.
Qed.

(** *** The Basic-auth wrapper, from both sides *)

Lemma SplitN_Basic (encoded : string) :
  strings_SplitN ("Basic " +:+ encoded) " " 2 = ["Basic"; encoded].
Proof. destruct encoded; vm_compute; reflexivity. Qed.

(** X12.  Every credential can get through: for any credential string
    (empty, with colons, with any bytes) a request whose [Authorization]
    value is [Basic] followed by the standard base64 encoding of the
    credential is forwarded to the inner handler. *)
Theorem wrapBasicAuth_accepts_encoded_credential
  (credential : string) (r : Request) (x : Exchange) :
  Header_Get (Header r) "Authorization"
  = "Basic " +:+ base64_StdEncoding_EncodeToString credential ->
  forwards credential r x.
Proof.
  intros Hvalue inner.
  assert (Hp : basic_payload r = Some (base64_StdEncoding_EncodeToString credential)).
  { unfold basic_payload. rewrite Hvalue, SplitN_Basic.
    destruct (decide (strings_ToLower "Basic" = "basic")) as [_|Hne]; [reflexivity|].
    now destruct Hne. }
  rewrite wrapBasicAuth_cases, Hp, base64_DecodeString_EncodeToString.
  destruct (decide (credential = credential)); [reflexivity | contradiction].
Qed.

Lemma wrapBasicAuth_unauthorized
  (handler : Handler) (credential : string) (r : Request) (x : Exchange) :
  ~ authorized credential r ->
  (forall inner, wrapBasicAuth inner credential r x = wrapBasicAuth handler credential r x)
  /\ logged (wrapBasicAuth handler credential r x) = logged x
  /\ (w_status x = None ->
      w_status (wrapBasicAuth handler credential r x) = Some 401
      \/ w_status (wrapBasicAuth handler credential r x) = Some 500).
Proof.
  intros Hno. unfold authorized in Hno.
  assert (Hcases :
    (forall inner, wrapBasicAuth inner credential r x
       = http_Error "Bad Request" StatusUnauthorized
           (Header_Set "WWW-Authenticate" challenge x))
    \/ (forall inner, wrapBasicAuth inner credential r x
          = http_Error "Internal Server Error" StatusInternalServerError x)
    \/ (forall inner, wrapBasicAuth inner credential r x
          = http_Error "authorization failed" StatusUnauthorized
              (Header_Set "WWW-Authenticate" challenge x))).
  { destruct (basic_payload r) as [payload|] eqn:Hp.
    - destruct (base64_StdEncoding_DecodeString payload) as [decoded|] eqn:Hd.
      + right; right. intros inner. rewrite wrapBasicAuth_cases, Hp, Hd.
        destruct (decide (decoded = credential)) as [->|_]; [|reflexivity].
        destruct Hno. now exists payload.
      + right; left. intros inner. now rewrite wrapBasicAuth_cases, Hp, Hd.
    - left. intros inner. now rewrite wrapBasicAuth_cases, Hp. }
  destruct Hcases as [H|[H|H]]; (split; [intros inner; now rewrite !H|]);
    rewrite (H handler), logged_http_Error; (split; [reflexivity|]); intros Hfresh.
  - left. now apply w_status_http_Error.
  - right. now apply w_status_http_Error.
  - left. now apply w_status_http_Error.
Qed.

(** X13.  A request that does not carry the credential never reaches the
    inner handler: the answer is the same whatever the inner handler is,
    nothing is logged, and on a fresh response the status is 401 or 500. *)
Theorem wrapBasicAuth_rejection_skips_handler
  (handler : Handler) (credential : string) (r : Request) (x : Exchange) :
  ~ authorized credential r ->
  (forall inner, wrapBasicAuth inner credential r x = wrapBasicAuth handler credential r x)
  /\ logged (wrapBasicAuth handler credential r x) = logged x
  /\ (w_status x = None ->
      w_status (wrapBasicAuth handler credential r x) = Some 401
      \/ w_status (wrapBasicAuth handler credential r x) = Some 500).
Proof. apply wrapBasicAuth_unauthorized. Qed.

(** *** [Run], as a whole *)

Lemma expandHomeDir_returns (path : string) :
  2 <= len path -> exists expanded, expandHomeDir path = Ret expanded.
Proof.
  intros Hlen. destruct path as [|a [|b rest]]; try (unfold len in Hlen; simpl in Hlen; lia).
  unfold expandHomeDir.
  assert (Hs : slice (String a (String b rest)) 0 2 = Ret (String a (String b EmptyString))).
  { unfold slice. destruct (decide _) as [_|Hn]; [reflexivity|].
    exfalso; apply Hn; unfold len in *; lia. }
  rewrite Hs. cbn [mbind Go_bind].
  destruct (decide _); [|now eexists].
  rewrite (slice_from_ok _ 1) by (simpl; lia). now eexists.
Qed.

Lemma expandHomeDir_short (path : string) :
  len path < 2 -> panics (expandHomeDir path).
Proof.
  intros Hlen. unfold expandHomeDir.
  destruct (slice_short path 2 Hlen) as [msg ->]. eexists; reflexivity.
Qed.

(** The prefix [Run] computes: nothing, or [/] and the random segment. *)
Lemma Run_prefix_segment (o : Options) (draw : nat) :
  (EnableRandomUrl o = true -> 0 <= RandomUrlLength o <= Z.of_N maxAlloc) ->
  exists path : string,
    (if EnableRandomUrl o
     then '(s, _) ← generateRandomString (RandomUrlLength o) draw; mret ("" +:+ "/" +:+ s)
     else mret "") = Ret path
    /\ (EnableRandomUrl o = false -> path = "")
    /\ (EnableRandomUrl o = true ->
        exists s, path = "/" +:+ s /\ len s = RandomUrlLength o
                  /\ string_forallb base36_digit s = true).
Proof.
  intros Hlen. destruct (EnableRandomUrl o).
  - specialize (Hlen eq_refl). rewrite generateRandomString_granted by assumption.
    destruct (randomBytes_base36 (Z.to_nat (RandomUrlLength o)) draw) as (s & -> & Hl & Hall).
    eexists. split; [reflexivity|]. split; [discriminate|]. intros _.
    exists s. repeat split; [|assumption]. unfold len. rewrite Hl. lia.
  - exists "". repeat split. discriminate.
Qed.

(** X14.  With a reader that does not fail, [Run] panics exactly when
    the options are not startable: with the random URL enabled, a
    segment length that [make] refuses (negative, or above the
    allocation limit), or, with TLS enabled, a certificate or key path
    of fewer than two bytes (an empty one included).  With TLS disabled
    the two paths are never looked at. *)
Theorem Run_panics_iff (app : App) (draw : nat) :
  panics (Run app draw) <-> ~ startable (options app).
Proof.
  set (o := options app). unfold startable, Run. fold o.
  destruct (EnableRandomUrl o) eqn:Hrand.
  - destruct (Z.lt_ge_cases (RandomUrlLength o) 0) as [Hneg|Hpos];
      [|destruct (Z.lt_ge_cases (Z.of_N maxAlloc) (RandomUrlLength o)) as [Hbig|Hsmall]].
    + destruct (generateRandomString_refused (RandomUrlLength o) draw) as [msg ->];
        [now left|].
      split; [intros _ [H _]; specialize (H eq_refl); lia | intros _; eexists; reflexivity].
    + destruct (generateRandomString_refused (RandomUrlLength o) draw) as [msg ->];
        [now right|].
      split; [intros _ [H _]; specialize (H eq_refl); lia | intros _; eexists; reflexivity].
    + destruct (Run_prefix_segment o draw) as (path & Hpath & _);
        [rewrite Hrand; intros _; lia|].
      rewrite Hrand in Hpath. rewrite Hpath. cbn [mbind Go_bind].
      destruct (EnableTLS o).
      * destruct (Z.lt_ge_cases (len (TLSCrtFile o)) 2) as [Hc|Hc].
        { destruct (expandHomeDir_short _ Hc) as [msg ->].
          split; [intros _ [_ H]; specialize (H eq_refl); lia | intros _; eexists; reflexivity]. }
        destruct (expandHomeDir_returns _ Hc) as [certFile ->]. cbn [mbind Go_bind].
        destruct (Z.lt_ge_cases (len (TLSKeyFile o)) 2) as [Hk|Hk].
        { destruct (expandHomeDir_short _ Hk) as [msg ->].
          split; [intros _ [_ H]; specialize (H eq_refl); lia | intros _; eexists; reflexivity]. }
        destruct (expandHomeDir_returns _ Hk) as [keyFile ->]. cbn [mbind Go_bind mret Go_ret].
        split; [intros [msg [=]] | intros H; destruct H; split; [lia | now split]].
      * cbn [mbind Go_bind mret Go_ret].
        split; [intros [msg [=]] | intros H; destruct H; split; [lia | discriminate]].
  - cbn [mbind Go_bind mret Go_ret].
    destruct (EnableTLS o).
    + destruct (Z.lt_ge_cases (len (TLSCrtFile o)) 2) as [Hc|Hc].
      { destruct (expandHomeDir_short _ Hc) as [msg ->].
        split; [intros _ [_ H]; specialize (H eq_refl); lia | intros _; eexists; reflexivity]. }
      destruct (expandHomeDir_returns _ Hc) as [certFile ->]. cbn [mbind Go_bind].
      destruct (Z.lt_ge_cases (len (TLSKeyFile o)) 2) as [Hk|Hk].
      { destruct (expandHomeDir_short _ Hk) as [msg ->].
        split; [intros _ [_ H]; specialize (H eq_refl); lia | intros _; eexists; reflexivity]. }
      destruct (expandHomeDir_returns _ Hk) as [keyFile ->]. cbn [mbind Go_bind mret Go_ret].
      split; [intros [msg [=]] | intros H; destruct H; split; [discriminate | now split]].
    + split; [intros [msg [=]] | intros H; destruct H; split; discriminate].
Qed.

(** What a call of [Run] that gets through leaves behind. *)
Lemma Run_returns (app : App) (draw : nat) :
  startable (options app) ->
  let o := options app in
  exists path st,
    (EnableRandomUrl o = false -> path = "")
    /\ (EnableRandomUrl o = true ->
        exists s, path = "/" +:+ s /\ len s = RandomUrlLength o
                  /\ string_forallb base36_digit s = true)
    /\ Run app draw = Ret st
    /\ siteMux st = [(path +:+ "/", http_StripPrefix (path +:+ "/") staticHandler);
                     (path +:+ "/ws", handleWS app)]
    /\ ServeCall_handler (served st)
       = wrapLogger (if EnableBasicAuth o
                     then wrapBasicAuth (ServeMux_ServeHTTP (siteMux st)) (Credential o)
                     else ServeMux_ServeHTTP (siteMux st))
    /\ run_err st = serve (served st)
    /\ run_logged st
       = (let lines :=
            ((((if PermitWrite o
                then ["Permitting clients to write input to the PTY."] else [])
               ++ (if Once o
                   then ["Once option is provided, accepting only one client"] else []))
              ++ (if EnableBasicAuth o then ["Using Basic Authentication"] else []))
             ++ ["Server is starting with command: " +:+ strings_Join (command app) " "])
            ++ (if bool_decide (Address o <> "")
                then ["URL: " +:+ url_String (if EnableTLS o then "https" else "http")
                                   (net_JoinHostPort (Address o) (Port o)) (path +:+ "/")]
                else map (fun address =>
                            "URL: " +:+ url_String (if EnableTLS o then "https" else "http")
                                          (net_JoinHostPort address (Port o)) (path +:+ "/"))
                         listAddresses) in
          match serve (served st) with
          | Some _ => lines
          | None => lines ++ ["Exiting..."]
          end).
Proof.
  intros [Hlen Htls] o. fold o in Hlen, Htls.
  destruct (Run_prefix_segment o draw Hlen) as (path & Hpath & Hoff & Hon).
  exists path. unfold Run. fold o. rewrite Hpath. cbn [mbind Go_bind].
  destruct (EnableTLS o) eqn:Etls.
  - destruct (Htls eq_refl) as [Hc Hk].
    destruct (expandHomeDir_returns _ Hc) as [certFile ->].
    destruct (expandHomeDir_returns _ Hk) as [keyFile ->].
    cbn [mbind Go_bind mret Go_ret]. eexists.
    split; [exact Hoff|]. split; [exact Hon|]. split; [reflexivity|].
    cbn [siteMux served run_err run_logged ServeCall_handler].
    split; [reflexivity|]. split; [now destruct (EnableBasicAuth o)|].
    split; [reflexivity|]. now destruct (serve _).
  - cbn [mbind Go_bind mret Go_ret]. eexists.
    split; [exact Hoff|]. split; [exact Hon|]. split; [reflexivity|].
    cbn [siteMux served run_err run_logged ServeCall_handler].
    split; [reflexivity|]. split; [now destruct (EnableBasicAuth o)|].
    split; [reflexivity|]. now destruct (serve _).
Qed.

(** X15.  The routes.  A startable [Run] registers exactly two patterns,
    the static route at [<prefix>/] (with that prefix stripped before the
    file server) and the upgrade route at [<prefix>/ws]; the prefix is
    empty without the random URL, and otherwise [/] followed by a segment
    of [RandomUrlLength] lower-case base-36 digits. *)
Theorem Run_routes (app : App) (draw : nat) :
  startable (options app) ->
  exists st prefix,
    Run app draw = Ret st
    /\ siteMux st = [(prefix +:+ "/", http_StripPrefix (prefix +:+ "/") staticHandler);
                     (prefix +:+ "/ws", handleWS app)]
    /\ (EnableRandomUrl (options app) = false -> prefix = "")
    /\ (EnableRandomUrl (options app) = true ->
        exists s, prefix = "/" +:+ s /\ len s = RandomUrlLength (options app)
                  /\ string_forallb base36_digit s = true).
Proof.
  intros Hok.
  destruct (Run_returns app draw Hok) as (path & st & Hoff & Hon & Hrun & Hmux & _).
  now exists st, path.
Qed.

(** X16.  With basic auth enabled, a request that does not carry the
    credential stops at the wrapper, whatever its route: the handler the
    server was started with answers as the wrapper alone does, so neither
    the mux nor a route handler takes part; the only line logged is the
    access line, and on a fresh response the status is 401 or 500. *)
Theorem Run_unauthorized_stops_at_wrapper
  (app : App) (draw : nat) (r : Request) (x : Exchange) :
  startable (options app) ->
  EnableBasicAuth (options app) = true ->
  ~ authorized (Credential (options app)) r ->
  exists st,
    Run app draw = Ret st
    /\ ServeCall_handler (served st) r x
       = wrapBasicAuth idle (Credential (options app)) r (log_Printf (access_line r) x)
    /\ logged (ServeCall_handler (served st) r x) = logged x ++ [access_line r]
    /\ (w_status x = None ->
        w_status (ServeCall_handler (served st) r x) = Some 401
        \/ w_status (ServeCall_handler (served st) r x) = Some 500).
Proof.
  intros Hok Hauth Hno.
  destruct (Run_returns app draw Hok) as (path & st & _ & _ & Hrun & _ & Hh & _).
  rewrite Hauth in Hh. exists st. split; [exact Hrun|]. rewrite Hh. unfold wrapLogger.
  fold (access_line r).
  destruct (wrapBasicAuth_unauthorized idle (Credential (options app)) r
              (log_Printf (access_line r) x) Hno) as (Hsame & Hlog & Hst).
  rewrite (Hsame (ServeMux_ServeHTTP (siteMux st))).
  split; [reflexivity|]. split; [exact Hlog|]. exact Hst.
Qed.

Lemma is_URL_line_URL (rest : string) : is_URL_line ("URL: " +:+ rest) = true.
Proof. destruct rest; reflexivity. Qed.

Lemma filter_URL_lines (scheme port path : string) (addresses : list string) :
  List.filter is_URL_line
    (map (fun address => "URL: " +:+ url_String scheme (net_JoinHostPort address port) path)
         addresses)
  = map (fun address => "URL: " +:+ url_String scheme (net_JoinHostPort address port) path)
        addresses.
Proof.
  induction addresses as [|a l IH]; [reflexivity|].
  cbn [map List.filter]. now rewrite is_URL_line_URL, IH.
Qed.

(** X17.  The URLs announced.  A startable [Run] logs exactly one URL
    line when an address is configured, and otherwise one URL line per
    address that [listAddresses] returns (none when there is none). *)
Theorem Run_URL_lines (app : App) (draw : nat) :
  startable (options app) ->
  exists st,
    Run app draw = Ret st
    /\ length (List.filter is_URL_line (run_logged st))
       = (if decide (Address (options app) = "") then length listAddresses else 1%nat).
Proof.
  intros Hok.
  destruct (Run_returns app draw Hok) as (path & st & _ & _ & Hrun & _ & _ & _ & Hlog).
  exists st. split; [exact Hrun|]. rewrite Hlog. cbv zeta.
  assert (Hpre : forall tail,
    List.filter is_URL_line
      (((((if PermitWrite (options app)
           then ["Permitting clients to write input to the PTY."] else [])
          ++ (if Once (options app)
              then ["Once option is provided, accepting only one client"] else []))
         ++ (if EnableBasicAuth (options app) then ["Using Basic Authentication"] else []))
        ++ ["Server is starting with command: " +:+ strings_Join (command app) " "])
       ++ tail)
    = List.filter is_URL_line tail).
  { intros tail. rewrite !List.filter_app.
    destruct (PermitWrite (options app)), (Once (options app)),
      (EnableBasicAuth (options app)); reflexivity. }
  assert (Hurls : forall urls,
    length (List.filter is_URL_line
              (match serve (served st) with
               | Some _ => urls
               | None => urls ++ ["Exiting..."]
               end))
    = length (List.filter is_URL_line urls)).
  { intros urls. destruct (serve (served st)); [reflexivity|].
    rewrite List.filter_app. cbn. now rewrite length_app, Nat.add_0_r. }
  destruct (serve (served st)) eqn:Eserve.
  - rewrite Hpre. destruct (decide (Address (options app) = "")) as [Ha|Ha].
    + rewrite bool_decide_false by auto. now rewrite filter_URL_lines, length_map.
    + rewrite bool_decide_true by auto. cbn [List.filter].
      now rewrite is_URL_line_URL.
  - rewrite <- app_assoc, Hpre, List.filter_app.
    destruct (decide (Address (options app) = "")) as [Ha|Ha].
    + rewrite bool_decide_false by auto.
      rewrite filter_URL_lines, length_app, length_map. cbn. lia.
    + rewrite bool_decide_true by auto. cbn [List.filter].
      now rewrite is_URL_line_URL.
Qed.

(** X18.  [Run] returns what serving ended with, and [Exiting...] is
    logged exactly when that is no error. *)
Theorem Run_exit_line (app : App) (draw : nat) :
  startable (options app) ->
  exists st,
    Run app draw = Ret st
    /\ run_err st = serve (served st)
    /\ ("Exiting..." ∈ run_logged st <-> run_err st = None).
Proof.
  intros Hok.
  destruct (Run_returns app draw Hok) as (path & st & _ & _ & Hrun & _ & _ & Herr & Hlog).
  exists st. split; [exact Hrun|]. split; [exact Herr|].
  rewrite Hlog, Herr. cbv zeta.
  assert (Hnot : forall lines : list string,
            Forall (fun line => line <> "Exiting...") lines -> "Exiting..." ∉ lines).
  { intros lines Hall Hin. rewrite Forall_forall in Hall. now apply (Hall _ Hin). }
  assert (Hall : Forall (fun line => line <> "Exiting...")
    (((((if PermitWrite (options app)
         then ["Permitting clients to write input to the PTY."] else [])
        ++ (if Once (options app)
            then ["Once option is provided, accepting only one client"] else []))
       ++ (if EnableBasicAuth (options app) then ["Using Basic Authentication"] else []))
      ++ ["Server is starting with command: " +:+ strings_Join (command app) " "])
     ++ (if bool_decide (Address (options app) <> "")
         then ["URL: " +:+ url_String (if EnableTLS (options app) then "https" else "http")
                            (net_JoinHostPort (Address (options app)) (Port (options app)))
                            (path +:+ "/")]
         else map (fun address =>
                     "URL: " +:+ url_String (if EnableTLS (options app) then "https" else "http")
                                   (net_JoinHostPort address (Port (options app)))
                                   (path +:+ "/"))
                  listAddresses))).
  { repeat apply Forall_app_2.
    - destruct (PermitWrite (options app)); repeat constructor; discriminate.
    - destruct (Once (options app)); repeat constructor; discriminate.
    - destruct (EnableBasicAuth (options app)); repeat constructor; discriminate.
    - repeat constructor. discriminate.
    - destruct (bool_decide _); [repeat constructor; discriminate|].
      apply Forall_forall. intros line Hin. apply list_elem_of_In, in_map_iff in Hin
        as (a & <- & _). discriminate. }
  destruct (serve (served st)) as [e|].
  - split; [intros Hin; now destruct (Hnot _ Hall) | discriminate].
  - split; [reflexivity|]. intros _. apply elem_of_app. right. apply elem_of_cons. now left.
Qed.

End App.

Arguments hcl_Decode {hcl_Object} hcl_Parse hcl_DecodeObject out input.
Arguments applyConfigFile unicode_ToLower {hcl_Object} hcl_Parse hcl_DecodeObject
  fs env options filePath.
Arguments ApplyConfigFile unicode_ToLower {hcl_Object} hcl_Parse hcl_DecodeObject
  fs env options configFilePath.
Arguments loadProfileFile {hcl_Object} hcl_Parse hcl_DecodeObject fs env options.

Arguments New {hcl_Object} hcl_Parse hcl_DecodeObject fs env {Template} template_Parse
  command options.

(** ** The package at work: instances of the properties *)

Lemma sample_rand_Int_range (i : nat) (max : Z) :
  0 < max -> exists c, sample_rand_Int i max = Some c /\ 0 <= c < max.
Proof. intros H. eexists. split; [reflexivity|]. now apply Z.mod_pos_bound. Qed.

(** *** The libraries *)

Example camelcase_Split_tls : camelcase_Split "TLSCrtFile" = ["TLS"; "Crt"; "File"].
Proof. vm_compute. reflexivity. Qed.

Example camelcase_Split_url : camelcase_Split "EnableRandomUrl" = ["Enable"; "Random"; "Url"].
Proof. vm_compute. reflexivity. Qed.

(** The fifteen keys of a configuration file. *)
Example configNames_are :
  configNames (fun s => s)
  = ["address"; "port"; "permit_write"; "enable_basic_auth"; "credential";
     "enable_random_url"; "random_url_length"; "profile_file"; "enable_tls";
     "tls_crt_file"; "tls_key_file"; "title_format"; "enable_reconnect";
     "reconnect_time"; "once"].
Proof. vm_compute. reflexivity. Qed.

Example FieldOk_Names : omap FieldOk Names = all_fields.
Proof. vm_compute. reflexivity. Qed.

Example base64_credential : base64_StdEncoding_DecodeString "dTpw" = Some "u:p".
Proof. vm_compute. reflexivity. Qed.

Example base64_one_pad : base64_StdEncoding_DecodeString "YWI=" = Some "ab".
Proof. vm_compute. reflexivity. Qed.

Example base64_two_pads : base64_StdEncoding_DecodeString "YQ==" = Some "a".
Proof. vm_compute. reflexivity. Qed.

Example base64_unpadded : base64_StdEncoding_DecodeString "YQ" = None.
Proof. vm_compute. reflexivity. Qed.

Example canonical_challenge_key :
  textproto_CanonicalMIMEHeaderKey "WWW-Authenticate" = "Www-Authenticate".
Proof. vm_compute. reflexivity. Qed.

Example SplitN_basic : strings_SplitN "Basic dTpw" " " 2 = ["Basic"; "dTpw"].
Proof. vm_compute. reflexivity. Qed.

Example SplitN_keeps_rest : strings_SplitN "a b c" " " 2 = ["a"; "b c"].
Proof. vm_compute. reflexivity. Qed.

Example SplitN_empty : strings_SplitN "" " " 2 = [""].
Proof. vm_compute. reflexivity. Qed.

Example FormatInt_35 : strconv_FormatInt 35 36 = Ret "z".
Proof. vm_compute. reflexivity. Qed.

Example FormatInt_36 : strconv_FormatInt 36 36 = Ret "10".
Proof. vm_compute. reflexivity. Qed.

Example FormatInt_negative : strconv_FormatInt (-37) 36 = Ret "-11".
Proof. vm_compute. reflexivity. Qed.

Example flat_Parse_two_lines :
  flat_Parse ("port = " +:+ dq +:+ "9000" +:+ dq +:+ String "010" "once = true")
  = inl [("port", VString "9000"); ("once", VBool true)].
Proof. vm_compute. reflexivity. Qed.

Example flat_Parse_int :
  flat_Parse "random_url_length = 12" = inl [("random_url_length", VInt 12)].
Proof. vm_compute. reflexivity. Qed.

Example flat_Parse_empty : flat_Parse "" = inl [].
Proof. vm_compute. reflexivity. Qed.

(** *** [expandHomeDir] *)

Example expandHomeDir_home :
  expandHomeDir sample_env "~/.gotty.prf" = Ret "/home/gotty/.gotty.prf".
Proof. vm_compute. reflexivity. Qed.

Example expandHomeDir_plain : expandHomeDir sample_env "/etc/gotty" = Ret "/etc/gotty".
Proof. vm_compute. reflexivity. Qed.

Example expandHomeDir_tilde_user : expandHomeDir sample_env "~gotty/x" = Ret "~gotty/x".
Proof. vm_compute. reflexivity. Qed.

Example expandHomeDir_empty : panics (expandHomeDir sample_env "").
Proof. eexists. vm_compute. reflexivity. Qed.

Example expandHomeDir_one_byte : panics (expandHomeDir sample_env "~").
Proof. eexists. vm_compute. reflexivity. Qed.

(** *** The Basic-auth wrapper *)

(** The request of the specification's scenario, [u:p] in base64, is forwarded. *)
Lemma wrapBasicAuth_gate_forwards :
  forwards (fun s => s) "u:p" (request_with_authorization "/ws" "Basic dTpw") newExchange.
Proof.
  destruct (wrapBasicAuth_gate (fun s => s) idle "u:p"
              (request_with_authorization "/ws" "Basic dTpw") newExchange eq_refl)
    as [Hfw _].
  apply Hfw. exists "dTpw". split; vm_compute; reflexivity.
Defined.

Example wrapBasicAuth_scheme_any_case :
  basic_payload (fun s => s) (request_with_authorization "/" "bAsIc dTpw") = Some "dTpw".
Proof. vm_compute. reflexivity. Qed.

Example wrapBasicAuth_no_header :
  let r := {| Method := "GET"; URL_Path := "/js/gotty.js"; Header := ∅;
              RemoteAddr := "192.0.2.7:51234" |} in
  let answer := wrapBasicAuth (fun s => s) idle "u:p" r newExchange in
  w_status answer = Some 401
  /\ w_header answer !! "Www-Authenticate" = Some [challenge].
Proof. vm_compute. split; reflexivity. Qed.

(** C1 as stated fails.  [Authorization: Basic !] has the Basic scheme
    and a payload that is not base64, so it is malformed; the answer is
    500 without a challenge, not 401 with one. *)
Lemma wrapBasicAuth_bad_base64_gets_500 :
  let r := request_with_authorization "/" "Basic !" in
  let answer := wrapBasicAuth (fun s => s) idle "u:p" r newExchange in
  basic_payload (fun s => s) r = Some "!"
  /\ base64_StdEncoding_DecodeString "!" = None
  /\ w_status answer = Some 500
  /\ w_header answer !! "Www-Authenticate" = None
  /\ ~ challenged answer.
Proof.
  cbv zeta. repeat split; try (vm_compute; reflexivity).
  intros [Hst _]. vm_compute in Hst. discriminate.
Qed.

(** *** Loading the configuration file *)

(** C2 as stated fails.  The document [foo = 1] has the key [foo], which
    is the name of no field; loading it returns no error. *)
Lemma applyConfigFile_unknown_key_accepted :
  let fs : gmap string Node := {[ "/etc/gotty.conf" := Regular "foo = 1" ]} in
  flat_Parse "foo = 1" = inl [("foo", VInt 1)]
  /\ ("foo" ∉ configNames (fun s => s))
  /\ applyConfigFile (fun s => s) flat_Parse flat_DecodeObject fs sample_env
       DefaultOptions "/etc/gotty.conf"
     = Ret {| applied_options := DefaultOptions; applied_err := None;
              applied_logged := ["Loading config file at: /etc/gotty.conf"] |}.
Proof.
  cbv zeta. split; [vm_compute; reflexivity|]. split.
  - apply (bool_decide_unpack _). vm_compute. exact I.
  - vm_compute. reflexivity.
Qed.

Lemma applyConfigFile_ignores_unknown_keys_at_foo :
  let fs : gmap string Node := {[ "/etc/gotty.conf" := Regular "foo = 1" ]} in
  applyConfigFile (fun s => s) flat_Parse flat_DecodeObject fs sample_env
    DefaultOptions "/etc/gotty.conf"
  = Ret (let '(options', err) :=
           applyNames (fun s => s)
             (delete "foo" (hcl_Decode flat_Parse flat_DecodeObject ∅ "foo = 1").1)
             Names DefaultOptions in
         {| applied_options := options'; applied_err := err;
            applied_logged := ["Loading config file at: /etc/gotty.conf"] |}).
Proof.
  cbv zeta.
  assert (Hfile : ({[ "/etc/gotty.conf" := Regular "foo = 1" ]} : gmap string Node)
                  !! "/etc/gotty.conf" = Some (Regular "foo = 1"))
    by (vm_compute; reflexivity).
  apply (proj1 (applyConfigFile_ignores_unknown_keys (fun s => s) _ flat_Parse
                  flat_DecodeObject {[ "/etc/gotty.conf" := Regular "foo = 1" ]}
                  sample_env DefaultOptions "/etc/gotty.conf" "/etc/gotty.conf" "foo = 1"
                  eq_refl Hfile)).
  apply (bool_decide_unpack _). vm_compute. exact I.
Defined.

(** Known keys are applied, in the order of the fields. *)
Example applyConfigFile_port_and_once :
  let doc := "port = " +:+ dq +:+ "9000" +:+ dq +:+ String "010" "once = true" in
  let fs : gmap string Node := {[ "/home/gotty/.gotty" := Regular doc ]} in
  options_after DefaultOptions
    (applyConfigFile (fun s => s) flat_Parse flat_DecodeObject fs sample_env
       DefaultOptions "~/.gotty")
  = set_Once true (set_Port "9000" DefaultOptions).
Proof. vm_compute. reflexivity. Qed.

(** A value of the wrong kind is refused, with the earlier fields already set. *)
Example applyConfigFile_wrong_kind :
  let doc := "address = " +:+ dq +:+ "::1" +:+ dq +:+ String "010" "port = 9000" in
  let fs : gmap string Node := {[ "/etc/gotty.conf" := Regular doc ]} in
  applyConfigFile (fun s => s) flat_Parse flat_DecodeObject fs sample_env
    DefaultOptions "/etc/gotty.conf"
  = Ret {| applied_options := set_Address "::1" DefaultOptions;
           applied_err := Some (errorString "wrong kind. got: int want: string");
           applied_logged := ["Loading config file at: /etc/gotty.conf"] |}.
Proof. vm_compute. reflexivity. Qed.

Lemma applyConfigFile_missing_at_home :
  exists err,
    applyConfigFile (fun s => s) flat_Parse flat_DecodeObject ∅ sample_env
      DefaultOptions "~/.gotty"
    = Ret {| applied_options := DefaultOptions; applied_err := Some err;
             applied_logged := [] |}
    /\ os_IsNotExist (Some err) = true.
Proof.
  apply (applyConfigFile_missing (fun s => s) _ flat_Parse flat_DecodeObject ∅ sample_env
           DefaultOptions "~/.gotty" "/home/gotty/.gotty"); vm_compute; reflexivity.
Defined.

(** *** Loading the profile file *)

Lemma loadProfileFile_default_missing :
  loadProfileFile flat_Parse flat_DecodeObject ∅ sample_env DefaultOptions = (∅, None, []).
Proof.
  assert (Hempty : hcl_Decode flat_Parse flat_DecodeObject ∅ "" = (∅, None))
    by (vm_compute; reflexivity).
  apply (proj1 (loadProfileFile_cases _ flat_Parse flat_DecodeObject ∅ sample_env
                  DefaultOptions Hempty)); vm_compute; reflexivity.
Defined.

Example loadProfileFile_explicit_missing :
  loadProfileFile flat_Parse flat_DecodeObject ∅ sample_env
    (set_ProfileFile "/etc/gotty.prf" DefaultOptions)
  = (∅, Some (PathError "stat" "/etc/gotty.prf" ENOENT), []).
Proof. vm_compute. reflexivity. Qed.

(** The document [port =] does not parse: the configuration loader
    returns no error on it, the profile loader returns the parser's. *)
Lemma Decode_error_at_port :
  let fs : gmap string Node :=
    {[ "/etc/gotty.conf" := Regular "port ="; "/home/gotty/.gotty.prf" := Regular "port =" ]} in
  applyConfigFile (fun s => s) flat_Parse flat_DecodeObject fs sample_env
    DefaultOptions "/etc/gotty.conf"
  = Ret {| applied_options := DefaultOptions; applied_err := None;
           applied_logged := ["Loading config file at: /etc/gotty.conf"] |}
  /\ loadProfileFile flat_Parse flat_DecodeObject fs sample_env DefaultOptions
     = (∅, Some (errorString "flat HCL: not an assignment of a literal"),
        ["Loading profile path: /home/gotty/.gotty.prf"]).
Proof.
  cbv zeta.
  destruct (Decode_error_dropped_by_config_returned_by_profile (fun s => s) _ flat_Parse
              flat_DecodeObject
              {[ "/etc/gotty.conf" := Regular "port =";
                 "/home/gotty/.gotty.prf" := Regular "port =" ]}
              sample_env DefaultOptions "/etc/gotty.conf" "/etc/gotty.conf" "port ="
              (errorString "flat HCL: not an assignment of a literal")
              ltac:(vm_compute; reflexivity))
    as [Hconfig Hprofile].
  split; [apply Hconfig | apply Hprofile]; vm_compute; reflexivity.
Defined.

(** *** The random path segment *)

Lemma generateRandomString_eight :
  exists s, generateRandomString sample_rand_Int sample_maxAlloc 8 0 = Ret (s, 8%nat)
            /\ len s = 8
            /\ string_forallb base36_digit s = true.
Proof.
  apply (proj1 (generateRandomString_base36 sample_rand_Int sample_maxAlloc
                  sample_rand_Int_range 8 0)).
  vm_compute. split; discriminate.
Defined.

(** A length that is not negative and that [make] refuses: with a limit
    of [2 ^ 48] bytes, [2 ^ 62] panics and no string is returned. *)
Lemma generateRandomString_above_limit_panics :
  0 <= 2 ^ 62
  /\ generateRandomString sample_rand_Int sample_maxAlloc (2 ^ 62) 0
     = Panic "runtime error: makeslice: len out of range".
Proof. split; [vm_compute; discriminate | vm_compute; reflexivity]. Qed.

Example generateRandomString_sample :
  generateRandomString sample_rand_Int sample_maxAlloc 8 0 = Ret ("3ahov29g", 8%nat).
Proof. vm_compute. reflexivity. Qed.

Example generateRandomString_negative :
  panics (generateRandomString sample_rand_Int sample_maxAlloc (-1) 0).
Proof. eexists. vm_compute. reflexivity. Qed.

(** When the reader fails, [rand.Int] returns a nil number and the call
    of [Int64] on it panics. *)
Example generateRandomString_failing_reader :
  generateRandomString failing_rand_Int sample_maxAlloc 8 0
  = Panic "runtime error: invalid memory address or nil pointer dereference".
Proof. vm_compute. reflexivity. Qed.

(** *** [Run] *)

Lemma Run_TLS_default_paths :
  exists st addr h,
    Run (fun s => s) sample_rand_Int sample_maxAlloc sample_env idle sample_mux sample_serveClient
        sample_url [] sample_serve
        {| command := ["bash"]; options := set_EnableTLS true DefaultOptions;
           preferences := ∅ |} 0
    = Ret st
    /\ served st = ListenAndServeTLS addr h "/home/gotty/.gotty.key" "/home/gotty/.gotty.crt".
Proof.
  destruct (Run_TLS_paths (fun s => s) sample_rand_Int sample_maxAlloc sample_env idle sample_mux
              sample_serveClient sample_url [] sample_serve sample_rand_Int_range
              {| command := ["bash"]; options := set_EnableTLS true DefaultOptions;
                 preferences := ∅ |} 0)
    as (_ & _ & H).
  destruct (H eq_refl) as [_ Hdefault]; [discriminate|].
  destruct (Hdefault eq_refl eq_refl) as (st & addr & h & Hrun & Hserved).
  exists st, addr, h. split; [exact Hrun | exact Hserved].
Defined.

(** With length 0 the routes are [//] and [//ws], and [//] is the path logged. *)
Example Run_length_zero :
  let o := set_RandomUrlLength 0 (set_EnableRandomUrl true (set_Address "localhost" DefaultOptions)) in
  (fun st => (map fst (siteMux st), run_logged st))
    <$> Run (fun s => s) sample_rand_Int sample_maxAlloc sample_env idle sample_mux sample_serveClient
          sample_url [] sample_serve
          {| command := ["bash"]; options := o; preferences := ∅ |} 0
  = Ret (["//"; "//ws"],
         ["Server is starting with command: bash"; "URL: http://localhost:8080//";
          "Exiting..."]).
Proof. vm_compute. reflexivity. Qed.

(** Without the random URL the routes are [/] and [/ws]. *)
Example Run_default_routes :
  (fun st => map fst (siteMux st))
    <$> Run (fun s => s) sample_rand_Int sample_maxAlloc sample_env idle sample_mux sample_serveClient
          sample_url [] sample_serve
          {| command := ["bash"]; options := DefaultOptions; preferences := ∅ |} 0
  = Ret ["/"; "/ws"].
Proof. vm_compute. reflexivity. Qed.

(** With a segment of eight digits they are [/3ahov29g/] and [/3ahov29g/ws]. *)
Example Run_random_routes :
  (fun st => map fst (siteMux st))
    <$> Run (fun s => s) sample_rand_Int sample_maxAlloc sample_env idle sample_mux sample_serveClient
          sample_url [] sample_serve
          {| command := ["bash"]; options := set_EnableRandomUrl true DefaultOptions;
             preferences := ∅ |} 0
  = Ret ["/3ahov29g/"; "/3ahov29g/ws"].
Proof. vm_compute. reflexivity. Qed.

(** ** Further properties, across environments *)

(** X6.  Profile loading looks at one path only, and for an explicitly
    named profile never at [$HOME]: two file systems that agree on
    [profilePath] give the same result, and with a profile name other
    than the default the result is the same under any environment, so a
    name that starts with [~/] is used as it is written, not expanded. *)
Theorem loadProfileFile_reads_one_path
  (hcl_Object : Type) (hcl_Parse : string -> hcl_Object + error)
  (hcl_DecodeObject : gmap string Value -> hcl_Object -> gmap string Value * option error)
  (options : Options) :
  (forall (fs fs' : gmap string Node) (env : gmap string string),
     fs !! profilePath env options = fs' !! profilePath env options ->
     loadProfileFile hcl_Parse hcl_DecodeObject fs env options
     = loadProfileFile hcl_Parse hcl_DecodeObject fs' env options)
  /\ (forall (fs : gmap string Node) (env env' : gmap string string),
        ProfileFile options <> ProfileFile DefaultOptions ->
        loadProfileFile hcl_Parse hcl_DecodeObject fs env options
        = loadProfileFile hcl_Parse hcl_DecodeObject fs env' options).
Proof.
  split.
  - intros fs fs' env Hsame. unfold loadProfileFile, os_Stat, ioutil_ReadFile.
    fold (profilePath env options). now rewrite Hsame.
  - intros fs env env' Hne. unfold loadProfileFile.
    destruct (decide (ProfileFile options = ProfileFile DefaultOptions)); [contradiction|].
    reflexivity.
Qed.

(** X19.  [handleWS] answers any method other than [GET] (compared byte
    for byte) with 405 and starts no session: the answer is the same
    whatever would serve the client, and the one line logged is the
    connection line.  A [GET] is handed to the session after that line. *)
Theorem handleWS_method_gate
  (serveClient serveClient' : list string -> Handler) (app : App) (r : Request) (x : Exchange) :
  let connected := log_Printf ("New client connected: " +:+ RemoteAddr r) x in
  (Method r <> "GET" ->
   handleWS serveClient app r x = handleWS serveClient' app r x
   /\ logged (handleWS serveClient app r x) = logged connected
   /\ (w_status x = None -> w_status (handleWS serveClient app r x) = Some 405))
  /\ (Method r = "GET" ->
      handleWS serveClient app r x = serveClient (command app) r connected).
Proof.
  cbv zeta. unfold handleWS. split; intros Hm.
  - rewrite !bool_decide_true by assumption. split; [reflexivity|].
    split; [apply logged_http_Error | intros Hfresh; now apply w_status_http_Error].
  - now rewrite bool_decide_false by auto.
Qed.

(** X20.  [listAddresses] returns the IPs of the [IPNet] and [IPAddr]
    addresses of the interfaces, and nothing else, interface by
    interface in the order given. *)
Theorem listAddresses_spec (ifaces ifaces' : list (list Addr)) (ip : string) :
  (ip ∈ listAddresses ifaces <->
   exists ifAddrs, ifAddrs ∈ ifaces /\ (IPNet ip ∈ ifAddrs \/ IPAddr ip ∈ ifAddrs))
  /\ listAddresses (ifaces ++ ifaces') = listAddresses ifaces ++ listAddresses ifaces'
  /\ (length (listAddresses ifaces) <= length (concat ifaces))%nat.
Proof.
  unfold listAddresses. split; [|split].
  - rewrite list_elem_of_In, in_flat_map. split.
    + intros (ifAddrs & Hin & Hip). exists ifAddrs. split; [now apply list_elem_of_In|].
      apply in_flat_map in Hip as (addr & Haddr & Hip). apply list_elem_of_In in Haddr.
      destruct addr as [ip'|ip'|]; cbn in Hip; try tauto;
        destruct Hip as [->|[]]; tauto.
    + intros (ifAddrs & Hin & Hip). exists ifAddrs. split; [now apply list_elem_of_In|].
      apply in_flat_map.
      destruct Hip as [Hip|Hip]; apply list_elem_of_In in Hip;
        eexists; (split; [exact Hip | cbn; tauto]).
  - apply flat_map_app.
  - induction ifaces as [|ifAddrs rest IH]; [reflexivity|].
    cbn [flat_map concat]. rewrite !length_app.
    assert (Hone : (length (flat_map (fun ifAddr => match ifAddr with
                                                    | IPNet ip0 => [ip0]
                                                    | IPAddr ip0 => [ip0]
                                                    | OtherAddr => []
                                                    end) ifAddrs) <= length ifAddrs)%nat).
    { clear. induction ifAddrs as [|[ | | ] l IHl]; cbn; lia. }
    lia.
Qed.

(** *** Instances *)

Lemma startable_DefaultOptions : startable sample_maxAlloc DefaultOptions.
Proof. split; discriminate. Qed.

Lemma applyConfigFile_keeps_address :
  let fs : gmap string Node := {[ "/etc/gotty.conf" := Regular "port = 9000" ]} in
  Field_Value FAddress
    (options_after DefaultOptions
       (applyConfigFile (fun s => s) flat_Parse flat_DecodeObject fs sample_env
          DefaultOptions "/etc/gotty.conf"))
  = VString "".
Proof.
  cbv zeta.
  apply (applyConfigFile_keeps_absent_fields (fun s => s) _ flat_Parse flat_DecodeObject
           {[ "/etc/gotty.conf" := Regular "port = 9000" ]} sample_env
           DefaultOptions "/etc/gotty.conf" FAddress).
  intros expanded doc Hexp Hfile. vm_compute in Hexp. injection Hexp as <-.
  assert (Hdoc : doc = "port = 9000") by (vm_compute in Hfile; congruence).
  subst doc. vm_compute. reflexivity.
Defined.

Lemma applyConfigFile_sets_port :
  let doc := "port = " +:+ dq +:+ "9000" +:+ dq +:+ String "010" "once = true" in
  let fs : gmap string Node := {[ "/etc/gotty.conf" := Regular doc ]} in
  let a := {| applied_options := set_Once true (set_Port "9000" DefaultOptions);
              applied_err := None;
              applied_logged := ["Loading config file at: /etc/gotty.conf"] |} in
  applyConfigFile (fun s => s) flat_Parse flat_DecodeObject fs sample_env
    DefaultOptions "/etc/gotty.conf" = Ret a
  /\ Field_Value FPort (applied_options a) = VString "9000"
  /\ Field_Value FOnce (applied_options a) = VBool true.
Proof.
  set (doc := "port = " +:+ dq +:+ "9000" +:+ dq +:+ String "010" "once = true").
  set (fs := {[ "/etc/gotty.conf" := Regular doc ]} : gmap string Node).
  set (a := {| applied_options := set_Once true (set_Port "9000" DefaultOptions);
               applied_err := None;
               applied_logged := ["Loading config file at: /etc/gotty.conf"] |}).
  cbv zeta.
  assert (Hrun : applyConfigFile (fun s => s) flat_Parse flat_DecodeObject fs sample_env
                   DefaultOptions "/etc/gotty.conf" = Ret a)
    by (vm_compute; reflexivity).
  assert (Hexp : expandHomeDir sample_env "/etc/gotty.conf" = Ret "/etc/gotty.conf")
    by (vm_compute; reflexivity).
  assert (Hfile : fs !! "/etc/gotty.conf" = Some (Regular doc))
    by (vm_compute; reflexivity).
  pose proof (applyConfigFile_success_sets_fields (fun s => s) _ flat_Parse flat_DecodeObject
                fs sample_env DefaultOptions "/etc/gotty.conf" "/etc/gotty.conf" doc a
                Hexp Hfile Hrun eq_refl) as Hset.
  split; [exact Hrun|].
  split; apply Hset; vm_compute; reflexivity.
Defined.

Lemma applyConfigFile_port_of_wrong_kind :
  let fs : gmap string Node := {[ "/etc/gotty.conf" := Regular "port = 9000" ]} in
  exists a,
    applyConfigFile (fun s => s) flat_Parse flat_DecodeObject fs sample_env
      DefaultOptions "/etc/gotty.conf" = Ret a
    /\ applied_err a <> None.
Proof.
  cbv zeta.
  destruct (applyConfigFile_error_iff_wrong_kind (fun s => s) _ flat_Parse flat_DecodeObject
              {[ "/etc/gotty.conf" := Regular "port = 9000" ]} sample_env
              DefaultOptions "/etc/gotty.conf" "/etc/gotty.conf" "port = 9000"
              ltac:(vm_compute; reflexivity) ltac:(vm_compute; reflexivity))
    as (a & Hrun & Hiff & _).
  exists a. split; [exact Hrun|]. apply Hiff.
  exists FPort, (VInt 9000). split; [vm_compute; reflexivity | discriminate].
Defined.

Lemma applyConfigFile_stops_at_port :
  let doc := "address = " +:+ dq +:+ "::1" +:+ dq +:+ String "010" "port = 9000"
             +:+ String "010" "once = true" in
  let fs : gmap string Node := {[ "/etc/gotty.conf" := Regular doc ]} in
  exists a,
    applyConfigFile (fun s => s) flat_Parse flat_DecodeObject fs sample_env
      DefaultOptions "/etc/gotty.conf" = Ret a
    /\ applied_err a = Some (errorString "wrong kind. got: int want: string")
    /\ Field_Value FAddress (applied_options a) = VString "::1"
    /\ Field_Value FOnce (applied_options a) = VBool false.
Proof.
  cbv zeta.
  destruct (applyConfigFile_stops_at_first_wrong_kind (fun s => s) _ flat_Parse
              flat_DecodeObject
              {[ "/etc/gotty.conf" :=
                   Regular ("address = " +:+ dq +:+ "::1" +:+ dq +:+ String "010" "port = 9000"
                            +:+ String "010" "once = true") ]}
              sample_env DefaultOptions "/etc/gotty.conf" "/etc/gotty.conf" _
              ["Address"] (skipn 2 Names) FPort (VInt 9000)
              ltac:(vm_compute; reflexivity) ltac:(vm_compute; reflexivity) eq_refl
              ltac:(vm_compute; reflexivity) ltac:(discriminate))
    as (a & Hrun & Herr & Hset & Hkept).
  - intros g v Hg Hv. apply list_elem_of_singleton in Hg.
    destruct g; try discriminate Hg. vm_compute in Hv. injection Hv as <-. reflexivity.
  - exists a. split; [exact Hrun|]. split; [exact Herr|]. split.
    + apply Hset; [apply list_elem_of_singleton; reflexivity | vm_compute; reflexivity].
    + apply (Hkept FOnce). apply list_elem_of_In. cbn. tauto.
Defined.

Lemma applyConfigFile_on_a_directory :
  let fs : gmap string Node := {[ "/etc" := Unreadable EISDIR "" ]} in
  options_after (set_Port "9000" DefaultOptions)
    (applyConfigFile (fun s => s) flat_Parse flat_DecodeObject fs sample_env
       (set_Port "9000" DefaultOptions) "/etc")
  = set_Port "9000" DefaultOptions.
Proof.
  cbv zeta.
  apply (applyConfigFile_no_regular_file (fun s => s) _ flat_Parse flat_DecodeObject
           {[ "/etc" := Unreadable EISDIR "" ]} sample_env
           (set_Port "9000" DefaultOptions) "/etc").
  intros expanded doc Hexp Hfile. vm_compute in Hexp. injection Hexp as <-.
  vm_compute in Hfile. discriminate.
Defined.

Lemma ApplyConfigFile_empty_path_panics :
  panics (ApplyConfigFile (fun s => s) flat_Parse flat_DecodeObject ∅ sample_env
            DefaultOptions "").
Proof.
  apply (ApplyConfigFile_short_path_panics (fun s => s) _ flat_Parse flat_DecodeObject
           ∅ sample_env DefaultOptions ""). reflexivity.
Defined.

(** An explicit profile name is not expanded: [~/my.prf] is looked up
    under that very name, and the file in the home directory is not
    found. *)
Example loadProfileFile_tilde_not_expanded :
  let fs : gmap string Node := {[ "/home/gotty/my.prf" := Regular "" ]} in
  loadProfileFile flat_Parse flat_DecodeObject fs sample_env
    (set_ProfileFile "~/my.prf" DefaultOptions)
  = (∅, Some (PathError "stat" "~/my.prf" ENOENT), []).
Proof. vm_compute. reflexivity. Qed.

Lemma loadProfileFile_error_of_missing_file :
  (loadProfileFile flat_Parse flat_DecodeObject ∅ sample_env
     (set_ProfileFile "/etc/gotty.prf" DefaultOptions)).1.1 = ∅.
Proof.
  apply (loadProfileFile_error_sources _ flat_Parse flat_DecodeObject ∅ sample_env
           (set_ProfileFile "/etc/gotty.prf" DefaultOptions)
           (PathError "stat" "/etc/gotty.prf" ENOENT)).
  vm_compute. reflexivity.
Defined.

(** An unreadable profile is no error: what was read is decoded. *)
Example loadProfileFile_unreadable :
  let fs : gmap string Node := {[ "/home/gotty/.gotty.prf" := Unreadable EIO "" ]} in
  loadProfileFile flat_Parse flat_DecodeObject fs sample_env DefaultOptions
  = (∅, None, ["Loading profile path: /home/gotty/.gotty.prf"]).
Proof. vm_compute. reflexivity. Qed.

Lemma expandHomeDir_stable_at_home :
  expandHomeDir sample_env "/home/gotty/.gotty" = Ret "/home/gotty/.gotty".
Proof.
  apply (expandHomeDir_stable sample_env "~/.gotty" "/home/gotty/.gotty");
    vm_compute; reflexivity.
Defined.

(** With [HOME] itself starting with [~/], a second expansion goes on. *)
Example expandHomeDir_unstable :
  let env : gmap string string := {[ "HOME" := "~/a" ]} in
  expandHomeDir env "~/b" = Ret "~/a/b"
  /\ expandHomeDir env "~/a/b" = Ret "~/a/a/b".
Proof. vm_compute. split; reflexivity. Qed.

Lemma New_without_profile_file_default :
  New flat_Parse flat_DecodeObject ∅ sample_env sample_template_Parse ["bash"] DefaultOptions
  = (Some ({| command := ["bash"]; options := DefaultOptions; preferences := ∅ |},
           TitleFormat DefaultOptions), None, []).
Proof.
  apply (proj1 (New_without_profile_file _ flat_Parse flat_DecodeObject ∅ sample_env _
                  sample_template_Parse ["bash"] DefaultOptions (TitleFormat DefaultOptions)
                  eq_refl ltac:(vm_compute; reflexivity) ltac:(vm_compute; reflexivity))).
  reflexivity.
Defined.

Lemma generateRandomString_digits_eight :
  exists s,
    generateRandomString sample_rand_Int sample_maxAlloc 8 0 = Ret (s, 8%nat)
    /\ forall k, (k < 8)%nat ->
         exists c, sample_rand_Int (0 + k) 36 = Some c
                   /\ String.get k s = Some (strconv_digit c).
Proof.
  apply (generateRandomString_digits sample_rand_Int sample_maxAlloc sample_rand_Int_range 8 0).
  vm_compute. split; discriminate.
Defined.

Example base64_EncodeToString_credential :
  base64_StdEncoding_EncodeToString "u:p" = "dTpw"
  /\ base64_StdEncoding_EncodeToString "ab" = "YWI="
  /\ base64_StdEncoding_EncodeToString "a" = "YQ=="
  /\ base64_StdEncoding_EncodeToString "" = "".
Proof. vm_compute. repeat split. Qed.

Lemma wrapBasicAuth_accepts_u_p :
  forwards (fun s => s) "u:p" (request_with_authorization "/ws" "Basic dTpw") newExchange.
Proof.
  apply (wrapBasicAuth_accepts_encoded_credential (fun s => s) "u:p"
           (request_with_authorization "/ws" "Basic dTpw") newExchange).
  vm_compute. reflexivity.
Defined.

(** With the default, empty credential, [Basic] and a space are enough. *)
Example wrapBasicAuth_empty_credential :
  forwards (fun s => s) "" (request_with_authorization "/" "Basic ") newExchange.
Proof. intros inner. vm_compute. reflexivity. Qed.

Lemma not_authorized_without_header (credential method path : string) :
  ~ authorized (fun s => s) credential (bare_request method path).
Proof. intros (payload & Hp & _). vm_compute in Hp. discriminate. Qed.

Lemma wrapBasicAuth_rejects_bare_request :
  logged (wrapBasicAuth (fun s => s) idle "u:p" (bare_request "GET" "/") newExchange) = [].
Proof.
  apply (wrapBasicAuth_rejection_skips_handler (fun s => s) idle "u:p"
           (bare_request "GET" "/") newExchange).
  apply not_authorized_without_header.
Defined.

Lemma Run_negative_length_panics :
  panics (Run (fun s => s) sample_rand_Int sample_maxAlloc sample_env idle sample_mux sample_serveClient
            sample_url [] sample_serve
            (sample_app (set_RandomUrlLength (-1) (set_EnableRandomUrl true DefaultOptions)))
            0).
Proof.
  apply (Run_panics_iff (fun s => s) sample_rand_Int sample_maxAlloc sample_env idle sample_mux
           sample_serveClient sample_url [] sample_serve sample_rand_Int_range).
  intros [Hlen _]. destruct (Hlen eq_refl) as [Hlow _]. now apply Hlow.
Defined.

(** A segment length above the allocation limit panics as well. *)
Example Run_length_above_limit_panics :
  Run (fun s => s) sample_rand_Int sample_maxAlloc sample_env idle sample_mux sample_serveClient
    sample_url [] sample_serve
    (sample_app (set_RandomUrlLength (2 ^ 62) (set_EnableRandomUrl true DefaultOptions))) 0
  = Panic "runtime error: makeslice: len out of range".
Proof. vm_compute. reflexivity. Qed.

(** With TLS enabled and an empty certificate path, [Run] panics. *)
Example Run_empty_certificate_path_panics :
  panics (Run (fun s => s) sample_rand_Int sample_maxAlloc sample_env idle sample_mux sample_serveClient
            sample_url [] sample_serve
            (sample_app (set_TLSCrtFile "" (set_EnableTLS true DefaultOptions))) 0).
Proof. eexists. vm_compute. reflexivity. Qed.

Lemma Run_routes_default :
  exists st prefix,
    Run (fun s => s) sample_rand_Int sample_maxAlloc sample_env idle sample_mux sample_serveClient
      sample_url [] sample_serve (sample_app DefaultOptions) 0 = Ret st
    /\ siteMux st
       = [(prefix +:+ "/", http_StripPrefix (prefix +:+ "/") idle);
          (prefix +:+ "/ws", handleWS sample_serveClient (sample_app DefaultOptions))]
    /\ prefix = "".
Proof.
  destruct (Run_routes (fun s => s) sample_rand_Int sample_maxAlloc sample_env idle sample_mux
              sample_serveClient sample_url [] sample_serve sample_rand_Int_range
              (sample_app DefaultOptions) 0 startable_DefaultOptions)
    as (st & prefix & Hrun & Hmux & Hoff & _).
  exists st, prefix. split; [exact Hrun|]. split; [exact Hmux | now apply Hoff].
Defined.

Lemma Run_unauthorized_bare_request :
  exists st,
    Run (fun s => s) sample_rand_Int sample_maxAlloc sample_env idle sample_mux sample_serveClient
      sample_url [] sample_serve
      (sample_app (set_Credential "u:p" (set_EnableBasicAuth true DefaultOptions))) 0
    = Ret st
    /\ logged (ServeCall_handler (served st) (bare_request "GET" "/ws") newExchange)
       = ["GET /ws"].
Proof.
  destruct (Run_unauthorized_stops_at_wrapper (fun s => s) sample_rand_Int sample_maxAlloc sample_env idle
              sample_mux sample_serveClient sample_url [] sample_serve sample_rand_Int_range
              (sample_app (set_Credential "u:p" (set_EnableBasicAuth true DefaultOptions))) 0
              (bare_request "GET" "/ws") newExchange)
    as (st & Hrun & _ & Hlog & _).
  - split; discriminate.
  - reflexivity.
  - apply not_authorized_without_header.
  - exists st. split; [exact Hrun | exact Hlog].
Defined.

Lemma Run_URL_lines_default :
  exists st,
    Run (fun s => s) sample_rand_Int sample_maxAlloc sample_env idle sample_mux sample_serveClient
      sample_url [[IPNet "127.0.0.1"; IPNet "::1"]; [OtherAddr; IPAddr "192.0.2.7"]]
      sample_serve (sample_app DefaultOptions) 0 = Ret st
    /\ length (List.filter is_URL_line (run_logged st)) = 3%nat.
Proof.
  destruct (Run_URL_lines (fun s => s) sample_rand_Int sample_maxAlloc sample_env idle sample_mux
              sample_serveClient sample_url
              [[IPNet "127.0.0.1"; IPNet "::1"]; [OtherAddr; IPAddr "192.0.2.7"]]
              sample_serve sample_rand_Int_range (sample_app DefaultOptions) 0
              startable_DefaultOptions)
    as (st & Hrun & Hcount).
  exists st. split; [exact Hrun | exact Hcount].
Defined.

Example Run_URL_lines_logged :
  (fun st => List.filter is_URL_line (run_logged st))
    <$> Run (fun s => s) sample_rand_Int sample_maxAlloc sample_env idle sample_mux sample_serveClient
          sample_url [[IPNet "127.0.0.1"; IPNet "::1"]; [OtherAddr; IPAddr "192.0.2.7"]]
          sample_serve (sample_app DefaultOptions) 0
  = Ret ["URL: http://127.0.0.1:8080/"; "URL: http://[::1]:8080/";
         "URL: http://192.0.2.7:8080/"].
Proof. vm_compute. reflexivity. Qed.

Lemma Run_exit_line_default :
  exists st,
    Run (fun s => s) sample_rand_Int sample_maxAlloc sample_env idle sample_mux sample_serveClient
      sample_url [] sample_serve (sample_app DefaultOptions) 0 = Ret st
    /\ "Exiting..." ∈ run_logged st.
Proof.
  destruct (Run_exit_line (fun s => s) sample_rand_Int sample_maxAlloc sample_env idle sample_mux
              sample_serveClient sample_url [] sample_serve sample_rand_Int_range
              (sample_app DefaultOptions) 0 startable_DefaultOptions)
    as (st & Hrun & Herr & Hiff).
  exists st. split; [exact Hrun|]. apply Hiff. rewrite Herr. reflexivity.
Defined.

Example handleWS_POST :
  w_status (handleWS sample_serveClient (sample_app DefaultOptions)
              (bare_request "POST" "/ws") newExchange) = Some 405.
Proof. vm_compute. reflexivity. Qed.

Example listAddresses_sample :
  listAddresses [[IPNet "127.0.0.1"; IPNet "::1"]; []; [OtherAddr; IPAddr "192.0.2.7"]]
  = ["127.0.0.1"; "::1"; "192.0.2.7"].
Proof. reflexivity. Qed.
